(** * The kingdoms / clans / members data-access layer (backend/src/dal.py)

    A shallow embedding of [dal.py]: the pydantic models [KingdomSummary],
    [ClanSummary], [Clan], [Member] with their [from_doc] constructors, and
    the methods of [KingdomDAL] over the two collections "kingdoms" and
    "clans".

    Conventions of the embedding.
    - Documents are Python dicts / BSON documents: association lists from
      keys to dynamically typed values, read with [doc[k]] (KeyError when
      the key is missing) or [doc.get(k, default)].
    - A method of the DAL is a computation over the database that may raise
      a Python exception.  What was written to the store before the
      exception stays written, so the state is threaded outside of the
      result: [db -> db * result A].
    - The function bodies are what is embedded; parameter and return
      annotations are not evaluated.
    - [ObjectId()] and [datetime.now()] are the only sources of
      nondeterminism; their results are explicit arguments of the methods
      that call them.
    - The behaviour of the libraries the code calls (the store's query and
      update operators, pydantic's validation and attribute assignment,
      bson's ObjectId, Python's builtins) follows their documentation;
      [str] on arbitrary values and [datetime.fromisoformat] are parameters
      of the development. *)

From Stdlib Require Import String Ascii List ZArith Bool Lia.
Import ListNotations.
Open Scope string_scope.
Open Scope list_scope.

(** ** Python values *)

(** A [bson.ObjectId], by its canonical [str()] form: 24 lowercase
    hexadecimal digits. *)
Definition oid := string.

(** A [datetime], as a count of microseconds. *)
Definition datetime := Z.

#[warnings="-register-all"]
Inductive value : Type :=
| VNone
| VBool (b : bool)
| VInt (n : Z)
| VStr (s : string)
| VOid (o : oid)
| VDate (t : datetime)
| VList (l : list value)
| VDict (d : list (string * value)).

(** A Python dict with string keys; a BSON document. *)
Definition document := list (string * value).

Inductive exn : Type :=
| NameError (name : string)
| KeyError (key : string)
| TypeError
| ValueError
| AttributeError
| ValidationError
| InvalidId
| DuplicateKeyError
| OperationFailure.

Inductive result (A : Type) : Type :=
| Ok (a : A)
| Raise (e : exn).
Arguments Ok {A} a.
Arguments Raise {A} e.

Module Py.

Definition bind {A B} (r : result A) (k : A -> result B) : result B :=
  match r with
  | Ok a => k a
  | Raise e => Raise e
  end.

(** [mapM f l]: the list comprehension [[f(x) for x in l]], left to
    right, stopping at the first exception. *)
Fixpoint mapM {A B} (f : A -> result B) (l : list A) : result (list B) :=
  match l with
  | [] => Ok []
  | x :: rest =>
      bind (f x) (fun y => bind (mapM f rest) (fun ys => Ok (y :: ys)))
  end.

(** Truth value of an object, as [bool(x)] and [filter(None, ...)] take
    it. *)
Definition truthy (v : value) : bool :=
  match v with
  | VNone => false
  | VBool b => b
  | VInt n => negb (Z.eqb n 0)
  | VStr s => negb (String.eqb s "")
  | VOid _ => true
  | VDate _ => true
  | VList l => match l with [] => false | _ => true end
  | VDict d => match d with [] => false | _ => true end
  end.

(** [doc.get(k)] *)
Fixpoint lookup (d : document) (k : string) : option value :=
  match d with
  | [] => None
  | (k', v) :: rest => if String.eqb k' k then Some v else lookup rest k
  end.

(** [doc[k]] *)
Definition getitem (d : document) (k : string) : result value :=
  match lookup d k with
  | Some v => Ok v
  | None => Raise (KeyError k)
  end.

(** [doc.get(k, default)] *)
Definition get (d : document) (k : string) (default : value) : value :=
  match lookup d k with
  | Some v => v
  | None => default
  end.

(** [doc[k] = v]: the value of an existing key is replaced in place, a
    new key goes last. *)
Fixpoint setitem (d : document) (k : string) (v : value) : document :=
  match d with
  | [] => [(k, v)]
  | (k', v') :: rest =>
      if String.eqb k' k then (k', v) :: rest
      else (k', v') :: setitem rest k v
  end.

(** The keys of a dict, each once, in order of first occurrence. *)
Fixpoint keys (d : document) : list string :=
  match d with
  | [] => []
  | (k, _) :: rest =>
      k :: filter (fun k' => negb (String.eqb k' k)) (keys rest)
  end.

Fixpoint chars (s : string) : list value :=
  match s with
  | EmptyString => []
  | String c rest => VStr (String c EmptyString) :: chars rest
  end.

(** Iteration: over the elements of a list, the characters of a string,
    the keys of a dict; anything else is not iterable. *)
Definition iter (v : value) : result (list value) :=
  match v with
  | VList l => Ok l
  | VStr s => Ok (chars s)
  | VDict d => Ok (map VStr (keys d))
  | _ => Raise TypeError
  end.

(** [v[...]] with a string key is defined on dicts only. *)
Definition as_dict (v : value) : result document :=
  match v with
  | VDict d => Ok d
  | _ => Raise TypeError
  end.

(** Structural equality of values. *)
Fixpoint eqb (v w : value) {struct v} : bool :=
  let fix list_eqb (l m : list value) {struct l} : bool :=
    match l, m with
    | [], [] => true
    | x :: l', y :: m' => eqb x y && list_eqb l' m'
    | _, _ => false
    end in
  let fix dict_eqb (d e : list (string * value)) {struct d} : bool :=
    match d, e with
    | [], [] => true
    | (k, x) :: d', (k', y) :: e' =>
        String.eqb k k' && eqb x y && dict_eqb d' e'
    | _, _ => false
    end in
  match v, w with
  | VNone, VNone => true
  | VBool a, VBool b => Bool.eqb a b
  | VInt a, VInt b => Z.eqb a b
  | VStr a, VStr b => String.eqb a b
  | VOid a, VOid b => String.eqb a b
  | VDate a, VDate b => Z.eqb a b
  | VList l, VList m => list_eqb l m
  | VDict d, VDict e => dict_eqb d e
  | _, _ => false
  end.

Definition dict_eqb (d e : document) : bool := eqb (VDict d) (VDict e).

End Py.

Declare Scope result_scope.
Notation "x <- r ;; k" := (Py.bind r (fun x => k))
  (at level 61, r at next level, right associativity) : result_scope.
Delimit Scope result_scope with result.
Open Scope result_scope.

(** Induction on values that reaches the elements of lists and dicts. *)
Section ValueInduction.
Variable P : value -> Prop.
Hypothesis HNone : P VNone.
Hypothesis HBool : forall b, P (VBool b).
Hypothesis HInt : forall n, P (VInt n).
Hypothesis HStr : forall s, P (VStr s).
Hypothesis HOid : forall o, P (VOid o).
Hypothesis HDate : forall t, P (VDate t).
Hypothesis HList : forall l, Forall P l -> P (VList l).
Hypothesis HDict : forall d, Forall (fun kv => P (snd kv)) d -> P (VDict d).

Fixpoint value_nested_ind (v : value) : P v :=
  match v with
  | VNone => HNone
  | VBool b => HBool b
  | VInt n => HInt n
  | VStr s => HStr s
  | VOid o => HOid o
  | VDate t => HDate t
  | VList l =>
      HList l
        ((fix go (l : list value) : Forall P l :=
            match l with
            | [] => Forall_nil _
            | x :: rest => Forall_cons x (value_nested_ind x) (go rest)
            end) l)
  | VDict d =>
      HDict d
        ((fix go (d : list (string * value))
            : Forall (fun kv => P (snd kv)) d :=
            match d with
            | [] => Forall_nil _
            | kv :: rest =>
                Forall_cons kv (value_nested_ind (snd kv)) (go rest)
            end) d)
  end.
End ValueInduction.

(** ** bson.ObjectId *)

Module Bson.

(** An identifier as the methods receive it: [str | ObjectId]. *)
Inductive ident : Type :=
| IdStr (s : string)
| IdOid (o : oid).

Definition is_hex (c : ascii) : bool :=
  existsb (Ascii.eqb c) (list_ascii_of_string "0123456789abcdefABCDEF").

Definition is_lower_hex (c : ascii) : bool :=
  existsb (Ascii.eqb c) (list_ascii_of_string "0123456789abcdef").

Definition lower (c : ascii) : ascii :=
  let n := nat_of_ascii c in
  if (65 <=? n)%nat && (n <=? 70)%nat then ascii_of_nat (n + 32) else c.

(** [ObjectId.is_valid(s)] for a string. *)
Definition is_valid (s : string) : bool :=
  (String.length s =? 24)%nat && forallb is_hex (list_ascii_of_string s).

(** The strings that are the [str()] of an ObjectId. *)
Definition canonical (o : oid) : bool :=
  (String.length o =? 24)%nat
  && forallb is_lower_hex (list_ascii_of_string o).

(** [ObjectId(x)]: a copy of an ObjectId, the parse of a 24-digit
    hexadecimal string, InvalidId for any other string. *)
Definition ObjectId (x : ident) : result oid :=
  match x with
  | IdOid o => Ok o
  | IdStr s =>
      if is_valid s
      then Ok (string_of_list_ascii (map lower (list_ascii_of_string s)))
      else Raise InvalidId
  end.

(** [str(x)] for an identifier. *)
Definition str (x : ident) : string :=
  match x with
  | IdStr s => s
  | IdOid o => o
  end.

End Bson.

(** ** Module-level names of dal.py *)

(** Every name bound at the top level of [dal.py], by its imports and its
    class statements. *)
Definition module_globals : list string :=
  [ "ObjectId"; "AsyncIOMotorCollection"; "AsyncIOMotorDatabase";
    "ReturnDocument"; "uuid4"; "datetime"; "BaseModel";
    "KingdomSummary"; "ClanSummary"; "Clan"; "Member"; "KingdomDAL" ].

Fixpoint assoc {A} (env : list (string * A)) (name : string) : option A :=
  match env with
  | [] => None
  | (n, a) :: rest => if String.eqb n name then Some a else assoc rest name
  end.

(** Evaluation of a global name where an object of kind [A] is expected.
    [typed] holds the module-level names bound to such an object; a name
    bound to an object of another kind fails with [other] at its use; a name
    that is not bound at all is a NameError. *)
Definition load_global {A} (typed : list (string * A)) (other : exn)
    (name : string) : result A :=
  match assoc typed name with
  | Some a => Ok a
  | None =>
      if existsb (String.eqb name) module_globals then Raise other
      else Raise (NameError name)
  end.

(** ** The pydantic models *)

Module Pydantic.

(** Validation of a [str] field: a string is taken as it is, a value of
    another type is refused. *)
Definition validate_str (v : value) : result string :=
  match v with
  | VStr s => Ok s
  | _ => Raise ValidationError
  end.

(** [BaseModel.__setattr__] under the default configuration: only a
    declared field can be assigned, any other attribute is refused with a
    ValueError. *)
Definition check_setattr (fields : list string) (attr : string)
    : result unit :=
  if existsb (String.eqb attr) fields then Ok tt else Raise ValueError.

End Pydantic.

Module KingdomSummary.

Record t : Type := mk { id : string; name : string; clan_count : Z }.

Definition fields : list string := ["id"; "name"; "clan_count"].

(** Module-level names of dal.py bound to a string: there is none. *)
Definition string_globals : list (string * string) := [].

Section FromDoc.
Variable str : value -> string.

(** [KingdomSummary.from_doc(doc)].  The third keyword argument
    subscripts [doc] with the global name [clanCount], not with a
    string literal.  The call itself passes [clanCount], which is not a
    field, and leaves the required [clan_count] out. *)
Definition from_doc (doc : value) : result t :=
  d <- Py.as_dict doc ;;
  i <- Py.getitem d "_id" ;;
  let id_ := str i in
  n <- Py.getitem d "name" ;;
  key <- load_global string_globals (KeyError "clanCount") "clanCount" ;;
  c <- Py.getitem d key ;;
  Raise ValidationError.
End FromDoc.

Definition dict (k : t) : document :=
  [("id", VStr (id k)); ("name", VStr (name k));
   ("clan_count", VInt (clan_count k))].

End KingdomSummary.

Module ClanSummary.

Record t : Type := mk { id : string; name : string; member_count : Z }.

Section FromDoc.
Variable str : value -> string.

(** [ClanSummary.from_doc(doc)]: passes [memberCount], which is not a
    field, and leaves the required [member_count] out. *)
Definition from_doc (doc : value) : result t :=
  d <- Py.as_dict doc ;;
  i <- Py.getitem d "_id" ;;
  let id_ := str i in
  n <- Py.getitem d "name" ;;
  c <- Py.getitem d "memberCount" ;;
  Raise ValidationError.
End FromDoc.

Definition dict (k : t) : document :=
  [("id", VStr (id k)); ("name", VStr (name k));
   ("member_count", VInt (member_count k))].

End ClanSummary.

Module Clan.

Record t : Type := mk { id : string; name : string; description : string }.

Definition fields : list string := ["id"; "name"; "description"].

Section FromDoc.
Variable str : value -> string.

(** [Clan.from_doc(doc)] *)
Definition from_doc (doc : value) : result t :=
  d <- Py.as_dict doc ;;
  i <- Py.getitem d "_id" ;;
  n <- Py.getitem d "clanName" ;;
  let desc := Py.get d "description" (VStr "") in
  n' <- Pydantic.validate_str n ;;
  desc' <- Pydantic.validate_str desc ;;
  Ok (mk (str i) n' desc').
End FromDoc.

(** [clan.dict()] *)
Definition dict (c : t) : document :=
  [("id", VStr (id c)); ("name", VStr (name c));
   ("description", VStr (description c))].

(** [clan.armyMembers = members] *)
Definition set_armyMembers (c : t) (members : list document) : result t :=
  _ <- Pydantic.check_setattr fields "armyMembers" ;;
  Ok c.

End Clan.

Module Member.

Record t : Type := mk {
  id : string;
  nickname : string;
  email : string;
  password : string;
  rank : string;
  member_of : list string;
  status : string;
  registration_date : datetime;
  last_login : datetime;
  description : string;
  phone : string;
  image_access : bool;
  info_access : bool;
  manage_access : bool;
  media_access : bool
}.

Section FromDoc.
Variable str : value -> string.
Variable fromisoformat : string -> option datetime.

(** [datetime.fromisoformat(v)]: a TypeError unless [v] is a string, a
    ValueError when the string is not in ISO format. *)
Definition parse_date (v : value) : result datetime :=
  match v with
  | VStr s =>
      match fromisoformat s with
      | Some t => Ok t
      | None => Raise ValueError
      end
  | _ => Raise TypeError
  end.

(** [Member.from_doc(doc)]: the keyword arguments are evaluated in
    order, then pydantic validates the fields. *)
Definition from_doc (doc : value) : result t :=
  d <- Py.as_dict doc ;;
  i <- Py.getitem d "_id" ;;
  nick <- Py.getitem d "nickname" ;;
  let mail := Py.get d "email" (VStr "") in
  let pass := Py.get d "password" (VStr "") in
  let rnk := Py.get d "rank" (VStr "") in
  stored <- Py.iter (Py.get d "memberOf" (VList [])) ;;
  let mo := filter Py.truthy stored in
  let stat := Py.get d "status" (VStr "") in
  reg <- parse_date (Py.get d "registrationDate" (VStr "")) ;;
  login <- parse_date (Py.get d "lastLogin" (VStr "")) ;;
  let desc := Py.get d "description" (VStr "") in
  let tel := Py.get d "phone" (VStr "") in
  let image := Py.truthy (Py.get d "imageAccess" (VBool false)) in
  let info := Py.truthy (Py.get d "infoAccess" (VBool false)) in
  let manage := Py.truthy (Py.get d "manageAccess" (VBool false)) in
  let media := Py.truthy (Py.get d "mediaAccess" (VBool false)) in
  nick' <- Pydantic.validate_str nick ;;
  mail' <- Pydantic.validate_str mail ;;
  pass' <- Pydantic.validate_str pass ;;
  rnk' <- Pydantic.validate_str rnk ;;
  mo' <- Py.mapM Pydantic.validate_str mo ;;
  stat' <- Pydantic.validate_str stat ;;
  desc' <- Pydantic.validate_str desc ;;
  tel' <- Pydantic.validate_str tel ;;
  Ok (mk (str i) nick' mail' pass' rnk' mo' stat' reg login desc' tel'
         image info manage media).
End FromDoc.

(** [member.dict()] *)
Definition dict (m : t) : document :=
  [("id", VStr (id m)); ("nickname", VStr (nickname m));
   ("email", VStr (email m)); ("password", VStr (password m));
   ("rank", VStr (rank m)); ("member_of", VList (map VStr (member_of m)));
   ("status", VStr (status m));
   ("registration_date", VDate (registration_date m));
   ("last_login", VDate (last_login m));
   ("description", VStr (description m)); ("phone", VStr (phone m));
   ("image_access", VBool (image_access m));
   ("info_access", VBool (info_access m));
   ("manage_access", VBool (manage_access m));
   ("media_access", VBool (media_access m))].

End Member.

(** An instance of one of the four model classes. *)
Inductive model : Type :=
| AKingdomSummary (k : KingdomSummary.t)
| AClanSummary (c : ClanSummary.t)
| AClan (c : Clan.t)
| AMember (m : Member.t).

(** [instance.dict()] *)
Definition model_dict (x : model) : document :=
  match x with
  | AKingdomSummary k => KingdomSummary.dict k
  | AClanSummary c => ClanSummary.dict c
  | AClan c => Clan.dict c
  | AMember m => Member.dict m
  end.

Definition map_result {A B} (f : A -> B) (r : result A) : result B :=
  x <- r ;; Ok (f x).

(** ** The document store *)

Module Mongo.

Definition collection := list document.

Definition is_oid (o : oid) (v : value) : bool :=
  match v with
  | VOid o' => String.eqb o' o
  | _ => false
  end.

(** The query [{"_id": ObjectId(o)}] on a document. *)
Definition has_id (o : oid) (d : document) : bool :=
  match Py.lookup d "_id" with
  | Some v => is_oid o v
  | None => false
  end.

(** The query [{field: ObjectId(o)}] on a document: the field holds the
    identifier, or an array that contains it. *)
Definition field_is (field : string) (o : oid) (d : document) : bool :=
  match Py.lookup d field with
  | Some (VList l) => existsb (is_oid o) l
  | Some v => is_oid o v
  | None => false
  end.

(** The same condition on an element of an array: only an embedded
    document can satisfy it. *)
Definition elem_has_id (o : oid) (e : value) : bool :=
  match e with
  | VDict d => field_is "_id" o d
  | _ => false
  end.

Definition find (q : document -> bool) (c : collection) : list document :=
  filter q c.

Definition find_one (q : document -> bool) (c : collection)
    : option document :=
  List.find q c.

(** The projection [{"name": 1}]: [_id] and [name] only. *)
Definition project_name (d : document) : document :=
  filter (fun kv => String.eqb (fst kv) "_id" || String.eqb (fst kv) "name")
         d.

(** [insert_one(doc)] of a document whose [_id] is [o]. *)
Definition insert_one (o : oid) (d : document) (c : collection)
    : result collection :=
  if existsb (has_id o) c then Raise DuplicateKeyError else Ok (c ++ [d]).

(** [delete_one(q)]: the collection without the first document that
    satisfies [q], and [deleted_count]. *)
Fixpoint delete_one (q : document -> bool) (c : collection)
    : collection * nat :=
  match c with
  | [] => ([], 0%nat)
  | d :: rest =>
      if q d then (rest, 1%nat)
      else let (rest', n) := delete_one q rest in (d :: rest', n)
  end.

Record UpdateResult : Type := mkUpdateResult {
  matched_count : nat;
  modified_count : nat
}.

(** [update_one(q, u, upsert=False)]: [u] is applied to the first
    document that satisfies [q]; the document counts as modified when the
    update changed it.  A failing update writes nothing. *)
Fixpoint update_one (q : document -> bool) (u : document -> result document)
    (c : collection) : result (collection * UpdateResult) :=
  match c with
  | [] => Ok ([], mkUpdateResult 0 0)
  | d :: rest =>
      if q d then
        d' <- u d ;;
        Ok (d' :: rest,
            mkUpdateResult 1 (if Py.dict_eqb d d' then 0 else 1))
      else
        r <- update_one q u rest ;;
        Ok (d :: fst r, snd r)
  end.

(** [find_one_and_update(q, u, return_document=AFTER)] *)
Fixpoint find_one_and_update (q : document -> bool)
    (u : document -> result document) (c : collection)
    : result (collection * option document) :=
  match c with
  | [] => Ok ([], None)
  | d :: rest =>
      if q d then
        d' <- u d ;;
        Ok (d' :: rest, Some d')
      else
        r <- find_one_and_update q u rest ;;
        Ok (d :: fst r, snd r)
  end.

(** [{"$set": fields}] on top-level fields. *)
Definition set_fields (fields : list (string * value)) (d : document)
    : document :=
  fold_left (fun acc kv => Py.setitem acc (fst kv) (snd kv)) fields d.

(** The array that [$push] on [armyMembers] appends to. *)
Definition members_before (d : document) : list value :=
  match Py.lookup d "armyMembers" with
  | Some (VList l) => l
  | _ => []
  end.

(** [{"$push": {field: v}}]: appends to the array, creates it when the
    field is missing, fails on a field that is not an array. *)
Definition push (field : string) (v : value) (d : document)
    : result document :=
  match Py.lookup d field with
  | None => Ok (Py.setitem d field (VList [v]))
  | Some (VList l) => Ok (Py.setitem d field (VList (l ++ [v])))
  | Some _ => Raise OperationFailure
  end.

(** [{"$pull": {field: {"_id": ObjectId(o)}}}]: removes the elements that
    satisfy the condition; nothing to do when the field is missing; fails
    on a field that is not an array. *)
Definition pull (field : string) (o : oid) (d : document)
    : result document :=
  match Py.lookup d field with
  | None => Ok d
  | Some (VList l) =>
      Ok (Py.setitem d field
            (VList (filter (fun e => negb (elem_has_id o e)) l)))
  | Some _ => Raise OperationFailure
  end.

(** [{"$set": {field.$[member].k: v, ...}}] with
    [array_filters=[{"member._id": ObjectId(o)}]]: the fields are set in
    every element of the array that satisfies the filter; the array has
    to exist. *)
Definition set_in_elements (field : string) (o : oid)
    (fields : list (string * value)) (d : document) : result document :=
  match Py.lookup d field with
  | Some (VList l) =>
      Ok (Py.setitem d field
            (VList (map (fun e =>
                           match e with
                           | VDict m =>
                               if field_is "_id" o m
                               then VDict (set_fields fields m)
                               else e
                           | _ => e
                           end) l)))
  | _ => Raise OperationFailure
  end.

End Mongo.

(** ** The driver's cursor *)

Module Motor.

(** The public attributes of the cursor that [collection.find] returns. *)
Definition cursor_attributes : list string :=
  [ "add_option"; "address"; "alive"; "allow_disk_use"; "batch_size";
    "clone"; "close"; "collation"; "comment"; "cursor_id"; "distinct";
    "each"; "explain"; "fetch_next"; "hint"; "limit"; "max";
    "max_await_time_ms"; "max_scan"; "max_time_ms"; "min"; "next";
    "next_object"; "remove_option"; "rewind"; "session"; "skip"; "sort";
    "to_list"; "try_next"; "where" ].

(** [cursor.<attr>] where a method that runs an aggregation pipeline is
    expected; [pipelines] holds the cursor methods of that kind. *)
Definition cursor_getattr {A} (pipelines : list (string * A))
    (attr : string) : result A :=
  match assoc pipelines attr with
  | Some a => Ok a
  | None =>
      if existsb (String.eqb attr) cursor_attributes then Raise TypeError
      else Raise AttributeError
  end.

End Motor.

(** ** KingdomDAL *)

Module KingdomDAL.

Import Bson.

(** [self._kingdom_collection] and [self._clan_collection]. *)
Record db : Type := mkdb {
  kingdom_collection : Mongo.collection;
  clan_collection : Mongo.collection
}.

(** A coroutine of the DAL. *)
Definition M (A : Type) : Type := db -> db * result A.

Definition ret {A} (a : A) : M A := fun s => (s, Ok a).

Definition raise {A} (e : exn) : M A := fun s => (s, Raise e).

Definition bind {A B} (m : M A) (k : A -> M B) : M B :=
  fun s =>
    match m s with
    | (s', Ok a) => k a s'
    | (s', Raise e) => (s', Raise e)
    end.

Definition lift {A} (r : result A) : M A := fun s => (s, r).

Definition kingdoms : M Mongo.collection :=
  fun s => (s, Ok (kingdom_collection s)).

Definition clans : M Mongo.collection :=
  fun s => (s, Ok (clan_collection s)).

Definition put_kingdoms (c : Mongo.collection) : M unit :=
  fun s => (mkdb c (clan_collection s), Ok tt).

Definition put_clans (c : Mongo.collection) : M unit :=
  fun s => (mkdb (kingdom_collection s) c, Ok tt).

Declare Scope dal_scope.
Delimit Scope dal_scope with dal.
Notation "x <~ m ;; k" := (bind m (fun x => k))
  (at level 61, m at next level, right associativity) : dal_scope.
Open Scope dal_scope.

Fixpoint for_each {A B} (f : A -> M B) (l : list A) : M (list B) :=
  match l with
  | [] => ret []
  | x :: rest =>
      y <~ f x ;;
      ys <~ for_each f rest ;;
      ret (y :: ys)
  end.

(** [if doc:] on the result of [find_one]. *)
Definition found (doc : option document) : bool :=
  match doc with
  | Some d => Py.truthy (VDict d)
  | None => false
  end.

Definition opt_value (doc : option document) : value :=
  match doc with
  | Some d => VDict d
  | None => VNone
  end.

(** An identifier read back from a document and handed to a method. *)
Definition ident_of (v : value) : result ident :=
  match v with
  | VOid o => Ok (IdOid o)
  | VStr s => Ok (IdStr s)
  | _ => Raise TypeError
  end.

Section Methods.
(** Python's [str] on a value. *)
Variable str : value -> string.
(** [datetime.fromisoformat] on a string. *)
Variable fromisoformat : string -> option datetime.
(** Whether the server refuses an update operator with an empty
    operand (it did before version 5.0, it accepts it as a no-op
    since). *)
Variable rejects_empty_update : bool.

(** The model classes that [dal.py] binds at module level. *)
Definition module_classes : list (string * (value -> result model)) :=
  [ ("KingdomSummary",
     fun doc => map_result AKingdomSummary
                  (KingdomSummary.from_doc str doc));
    ("ClanSummary",
     fun doc => map_result AClanSummary (ClanSummary.from_doc str doc));
    ("Clan", fun doc => map_result AClan (Clan.from_doc str doc));
    ("Member",
     fun doc => map_result AMember
                  (Member.from_doc str fromisoformat doc)) ].

(** [ArmyMember.from_doc(doc)] *)
Definition ArmyMember_from_doc (doc : value) : result model :=
  cls <- load_global module_classes AttributeError "ArmyMember" ;;
  cls doc.

(** [[ArmyMember.from_doc(member).dict()
      for member in doc.get("armyMembers", [])]] *)
Definition army_members (doc : document) : result (list document) :=
  members <- Py.iter (Py.get doc "armyMembers" (VList [])) ;;
  Py.mapM (fun member => map_result model_dict (ArmyMember_from_doc member))
          members.

(** The statements that [get_clan], [list_clans] and [update_clan] run
    on a clan document: build the [Clan], assign the converted members
    to [clan.armyMembers], return [clan.dict()]. *)
Definition hydrate (doc : document) : result document :=
  clan <- Clan.from_doc str (VDict doc) ;;
  members <- army_members doc ;;
  clan <- Clan.set_armyMembers clan members ;;
  Ok (Clan.dict clan).

(** [list_clans(kingdom_id)] *)
Definition list_clans (kingdom_id : ident) : M (list document) :=
  k <~ lift (ObjectId kingdom_id) ;;
  c <~ clans ;;
  for_each (fun doc => lift (hydrate doc))
           (Mongo.find (Mongo.field_is "kingdomId" k) c).

(** [list_kingdoms()] *)
Definition list_kingdoms : M (list KingdomSummary.t) :=
  c <~ kingdoms ;;
  for_each
    (fun doc =>
       kingdom <~ lift (KingdomSummary.from_doc str (VDict doc)) ;;
       cl <~ list_clans (IdStr (KingdomSummary.id kingdom)) ;;
       _ <~ lift (Pydantic.check_setattr KingdomSummary.fields
                    "clan_count") ;;
       ret (KingdomSummary.mk (KingdomSummary.id kingdom)
                              (KingdomSummary.name kingdom)
                              (Z.of_nat (length cl))))
    (map Mongo.project_name (Mongo.find (fun _ => true) c)).

(** [create_kingdom(name)]; [new_id] is the identifier that the driver
    generates for the document. *)
Definition create_kingdom (new_id : oid) (name : string) : M string :=
  c <~ kingdoms ;;
  c' <~ lift (Mongo.insert_one new_id
                [("_id", VOid new_id); ("name", VStr name)] c) ;;
  _ <~ put_kingdoms c' ;;
  ret new_id.

(** [get_kingdom(id)] *)
Definition get_kingdom (id : ident) : M (option document) :=
  o <~ lift (ObjectId id) ;;
  c <~ kingdoms ;;
  let doc := Mongo.find_one (Mongo.has_id o) c in
  if found doc then
    let d := match doc with Some d => d | None => [] end in
    i <~ lift (Py.getitem d "_id") ;;
    kid <~ lift (ident_of i) ;;
    cl <~ list_clans kid ;;
    cl <~ lift (Py.mapM
                  (fun clan =>
                     members <- army_members clan ;;
                     Ok (Py.setitem clan "armyMembers"
                           (VList (map VDict members))))
                  cl) ;;
    cl <~ lift (Py.mapM
                  (fun clan =>
                     map_result (fun x => VDict (Clan.dict x))
                                (Clan.from_doc str (VDict clan)))
                  cl) ;;
    ret (Some (Py.setitem d "clans" (VList cl)))
  else ret doc.

(** [delete_kingdom(id)] *)
Definition delete_kingdom (id : ident) : M bool :=
  o <~ lift (ObjectId id) ;;
  c <~ kingdoms ;;
  let (c', deleted_count) := Mongo.delete_one (Mongo.has_id o) c in
  _ <~ put_kingdoms c' ;;
  ret (Nat.eqb deleted_count 1).

(** [get_clan(id)] *)
Definition get_clan (id : ident) : M (option document) :=
  o <~ lift (ObjectId id) ;;
  c <~ clans ;;
  let doc := Mongo.find_one (Mongo.has_id o) c in
  if found doc then
    let d := match doc with Some d => d | None => [] end in
    r <~ lift (hydrate d) ;;
    ret (Some r)
  else ret None.

(** [create_clan(kingdom_id, clan_name, description)]; [new_id] is the
    result of [ObjectId()].  The insert is acknowledged (the default
    write concern). *)
Definition create_clan (new_id : oid) (kingdom_id : ident)
    (clan_name description : string) : M (option Clan.t) :=
  k <~ lift (ObjectId kingdom_id) ;;
  c <~ clans ;;
  c' <~ lift (Mongo.insert_one new_id
                [ ("_id", VOid new_id);
                  ("kingdomId", VOid k);
                  ("clanName", VStr clan_name);
                  ("description", VStr description);
                  ("armyMembers", VList []) ] c) ;;
  _ <~ put_clans c' ;;
  let acknowledged := true in
  if acknowledged then
    doc <~ get_clan (IdStr new_id) ;;
    clan <~ lift (Clan.from_doc str (opt_value doc)) ;;
    ret (Some clan)
  else ret None.

(** [delete_clan(id)] *)
Definition delete_clan (id : ident) : M bool :=
  o <~ lift (ObjectId id) ;;
  c <~ clans ;;
  let (c', deleted_count) := Mongo.delete_one (Mongo.has_id o) c in
  _ <~ put_clans c' ;;
  ret (Nat.eqb deleted_count 1).

(** The [new_member] document of [add_armymember]; [now1] and [now2]
    are the results of its two calls of [datetime.now()]. *)
Definition new_member (new_id : oid) (now1 now2 : datetime)
    (clan_id : ident) (nickname email password rank : string)
    : document :=
  [ ("_id", VOid new_id);
    ("nickname", VStr nickname);
    ("email", VStr email);
    ("password", VStr password);
    ("rank", VStr rank);
    ("memberOf", VList [VStr (Bson.str clan_id)]);
    ("status", VStr "");
    ("registrationDate", VDate now1);
    ("lastLogin", VDate now2);
    ("description", VStr "");
    ("phone", VStr "");
    ("imageAccess", VBool false);
    ("infoAccess", VBool false);
    ("manageAccess", VBool false);
    ("mediaAccess", VBool false) ].

(** [add_armymember(clan_id, nickname, email, password, rank)] *)
Definition add_armymember (new_id : oid) (now1 now2 : datetime)
    (clan_id : ident) (nickname email password rank : string)
    : M (option model) :=
  let member :=
    new_member new_id now1 now2 clan_id nickname email password rank in
  o <~ lift (ObjectId clan_id) ;;
  c <~ clans ;;
  r <~ lift (Mongo.update_one (Mongo.has_id o)
               (Mongo.push "armyMembers" (VDict member)) c) ;;
  _ <~ put_clans (fst r) ;;
  if (0 <? Mongo.modified_count (snd r))%nat then
    m <~ lift (ArmyMember_from_doc (VDict member)) ;;
    ret (Some m)
  else ret None.

(** [remove_armymember(clan_id, member_id)] *)
Definition remove_armymember (clan_id : ident) (member_id : string)
    : M bool :=
  o <~ lift (ObjectId clan_id) ;;
  m <~ lift (ObjectId (IdStr member_id)) ;;
  c <~ clans ;;
  r <~ lift (Mongo.update_one (Mongo.has_id o)
               (Mongo.pull "armyMembers" m) c) ;;
  _ <~ put_clans (fst r) ;;
  ret (0 <? Mongo.modified_count (snd r))%nat.

(** Aggregation methods of a cursor: there is none. *)
Definition cursor_pipelines
    : list (string * (oid -> M (list document))) := [].

(** [get_armymember(clan_id, member_id)].  [find] only builds the
    cursor; the method then asks the cursor for [aggregate]. *)
Definition get_armymember (clan_id : ident) (member_id : string)
    : M (option value) :=
  o <~ lift (ObjectId clan_id) ;;
  aggregate <~ lift (Motor.cursor_getattr cursor_pipelines "aggregate") ;;
  m <~ lift (ObjectId (IdStr member_id)) ;;
  res <~ aggregate m ;;
  match res with
  | first :: _ =>
      members <~ lift (Py.getitem first "armyMembers") ;;
      match members with
      | VList (x :: _) => ret (Some x)
      | _ => raise TypeError
      end
  | [] => ret None
  end.

(** The 13 fields that [update_armymember] sets, in the order of its
    update document. *)
Definition member_update (nickname email password rank status : string)
    (registration_date last_login : datetime)
    (description phone : string)
    (image_access info_access manage_access media_access : bool)
    : list (string * value) :=
  [ ("nickname", VStr nickname);
    ("email", VStr email);
    ("password", VStr password);
    ("rank", VStr rank);
    ("status", VStr status);
    ("registrationDate", VDate registration_date);
    ("lastLogin", VDate last_login);
    ("description", VStr description);
    ("phone", VStr phone);
    ("imageAccess", VBool image_access);
    ("infoAccess", VBool info_access);
    ("manageAccess", VBool manage_access);
    ("mediaAccess", VBool media_access) ].

(** [update_armymember(clan_id, member_id, ...)] *)
Definition update_armymember (clan_id : ident) (member_id : string)
    (nickname email password rank status : string)
    (registration_date last_login : datetime)
    (description phone : string)
    (image_access info_access manage_access media_access : bool)
    : M (option model) :=
  let fields :=
    member_update nickname email password rank status registration_date
      last_login description phone image_access info_access
      manage_access media_access in
  o <~ lift (ObjectId clan_id) ;;
  m <~ lift (ObjectId (IdStr member_id)) ;;
  c <~ clans ;;
  r <~ lift (Mongo.update_one (Mongo.has_id o)
               (Mongo.set_in_elements "armyMembers" m fields) c) ;;
  _ <~ put_clans (fst r) ;;
  if (0 <? Mongo.modified_count (snd r))%nat then
    member <~ get_armymember clan_id member_id ;;
    x <~ lift (ArmyMember_from_doc
                 (match member with Some v => v | None => VNone end)) ;;
    ret (Some x)
  else ret None.

(** The [update_fields] dict that [update_clan] builds: [clanName] when
    [name] is truthy, [description] when it is not None. *)
Definition update_fields (name description : option string)
    : list (string * value) :=
  (match name with
   | Some n => if Py.truthy (VStr n) then [("clanName", VStr n)] else []
   | None => []
   end)
  ++ (match description with
      | Some d => [("description", VStr d)]
      | None => []
      end).

(** [update_clan(clan_id, name=None, description=None)] *)
Definition update_clan (clan_id : ident) (name description : option string)
    : M (option document) :=
  let update_fields := update_fields name description in
  o <~ lift (ObjectId clan_id) ;;
  c <~ clans ;;
  _ <~ (match update_fields with
        | [] => if rejects_empty_update then raise OperationFailure
                else ret tt
        | _ => ret tt
        end) ;;
  r <~ lift (Mongo.find_one_and_update (Mongo.has_id o)
               (fun d => Ok (Mongo.set_fields update_fields d)) c) ;;
  _ <~ put_clans (fst r) ;;
  if found (snd r) then
    let d := match snd r with Some d => d | None => [] end in
    res <~ lift (hydrate d) ;;
    ret (Some res)
  else ret None.

End Methods.

End KingdomDAL.

(** ** A small database *)

Module Example.

Definition westeros_id : oid := "64b7f0c2a1b2c3d4e5f60001".
Definition stark_id : oid := "64b7f0c2a1b2c3d4e5f60002".
Definition jon_id : oid := "64b7f0c2a1b2c3d4e5f60003".
Definition arya_id : oid := "64b7f0c2a1b2c3d4e5f60004".
Definition tully_id : oid := "64b7f0c2a1b2c3d4e5f60005".

(** [str] on identifiers and strings. *)
Definition str (v : value) : string :=
  match v with
  | VOid o => o
  | VStr s => s
  | _ => ""
  end.

(** [datetime.fromisoformat] on two instants. *)
Definition fromisoformat (s : string) : option datetime :=
  if String.eqb s "1970-01-01T00:00:00" then Some 0%Z
  else if String.eqb s "1970-01-01T00:00:01" then Some 1000000%Z
  else None.

Definition westeros : document :=
  [("_id", VOid westeros_id); ("name", VStr "Westeros")].

(** The member that [add_armymember] stores for Jon. *)
Definition jon : document :=
  KingdomDAL.new_member jon_id 5%Z 6%Z (Bson.IdOid stark_id)
    "jon" "jon@wall.example" "ghost" "lord commander".

Definition stark : document :=
  [ ("_id", VOid stark_id);
    ("kingdomId", VOid westeros_id);
    ("clanName", VStr "Stark");
    ("description", VStr "Winter is coming");
    ("armyMembers", VList [VDict jon]) ].

(** A clan as [create_clan] stores it. *)
Definition tully : document :=
  [ ("_id", VOid tully_id);
    ("kingdomId", VOid westeros_id);
    ("clanName", VStr "Tully");
    ("description", VStr "");
    ("armyMembers", VList []) ].

Definition realm : KingdomDAL.db := KingdomDAL.mkdb [westeros] [stark].

Definition riverlands : KingdomDAL.db := KingdomDAL.mkdb [westeros] [tully].

(** Jon and his clan after [update_armymember] with new values for the
    13 fields. *)
Definition jon_promoted : document :=
  [ ("_id", VOid jon_id);
    ("nickname", VStr "snow");
    ("email", VStr "snow@north.example");
    ("password", VStr "longclaw");
    ("rank", VStr "king");
    ("memberOf", VList [VStr stark_id]);
    ("status", VStr "active");
    ("registrationDate", VDate 7%Z);
    ("lastLogin", VDate 8%Z);
    ("description", VStr "King in the North");
    ("phone", VStr "555");
    ("imageAccess", VBool true);
    ("infoAccess", VBool true);
    ("manageAccess", VBool true);
    ("mediaAccess", VBool true) ].

Definition stark_promoted : document :=
  [ ("_id", VOid stark_id);
    ("kingdomId", VOid westeros_id);
    ("clanName", VStr "Stark");
    ("description", VStr "Winter is coming");
    ("armyMembers", VList [VDict jon_promoted]) ].

(** A member document whose dates are ISO strings and whose [memberOf]
    holds an empty string. *)
Definition arya : document :=
  [ ("_id", VOid arya_id);
    ("nickname", VStr "arya");
    ("memberOf", VList [VStr ""; VStr stark_id; VNone]);
    ("registrationDate", VStr "1970-01-01T00:00:00");
    ("lastLogin", VStr "1970-01-01T00:00:01") ].

End Example.

(** * Properties *)

(** ** Values and dicts *)

Lemma eqb_refl (v : value) : Py.eqb v v = true.
Proof.
  induction v using value_nested_ind; simpl;
    try reflexivity;
    try apply Bool.eqb_reflx; try apply Z.eqb_refl; try apply String.eqb_refl.
  - induction H as [|x l Hx _ IH]; [reflexivity|].
    rewrite Hx. exact IH.
  - induction H as [|[k x] d Hx _ IH]; [reflexivity|].
    simpl in Hx. rewrite String.eqb_refl, Hx. exact IH.
Qed.

Lemma eqb_eq (v w : value) : Py.eqb v w = true -> v = w.
Proof.
  revert w.
  induction v using value_nested_ind; intros w E; destruct w; simpl in E;
    try discriminate; try reflexivity.
  - apply Bool.eqb_prop in E. now subst.
  - apply Z.eqb_eq in E. now subst.
  - apply String.eqb_eq in E. now subst.
  - apply String.eqb_eq in E. now subst.
  - apply Z.eqb_eq in E. now subst.
  - f_equal. revert l0 E.
    induction H as [|x l Hx _ IH]; intros [|y m] E; try discriminate;
      [reflexivity|].
    apply andb_true_iff in E as [E1 E2].
    f_equal; [now apply Hx | now apply IH].
  - f_equal. revert d0 E.
    induction H as [|[k x] d Hx _ IH]; intros [|[k' y] e] E;
      try discriminate; [reflexivity|].
    apply andb_true_iff in E as [E12 E3].
    apply andb_true_iff in E12 as [E1 E2].
    apply String.eqb_eq in E1. simpl in Hx. apply Hx in E2. subst.
    f_equal. now apply IH.
Qed.

Lemma dict_eqb_refl (d : document) : Py.dict_eqb d d = true.
Proof. apply (eqb_refl (VDict d)). Qed.

Lemma dict_eqb_eq (d e : document) : Py.dict_eqb d e = true -> d = e.
Proof. intros E. apply eqb_eq in E. now inversion E. Qed.

Lemma lookup_setitem_same (d : document) (k : string) (v : value) :
  Py.lookup (Py.setitem d k v) k = Some v.
Proof.
  induction d as [|[k' v'] d IH]; simpl.
  - now rewrite String.eqb_refl.
  - destruct (String.eqb k' k) eqn:E; simpl; rewrite E; [reflexivity|exact IH].
Qed.

Lemma lookup_setitem_other (d : document) (k k' : string) (v : value) :
  k <> k' -> Py.lookup (Py.setitem d k v) k' = Py.lookup d k'.
Proof.
  intros N.
  induction d as [|[k0 v0] d IH]; simpl.
  - destruct (String.eqb k k') eqn:E; [|reflexivity].
    apply String.eqb_eq in E. contradiction.
  - destruct (String.eqb k0 k) eqn:E; simpl.
    + apply String.eqb_eq in E. subst k0.
      destruct (String.eqb k k') eqn:E'; [|reflexivity].
      apply String.eqb_eq in E'. contradiction.
    + now rewrite IH.
Qed.

Lemma setitem_same (d : document) (k : string) (v : value) :
  Py.lookup d k = Some v -> Py.setitem d k v = d.
Proof.
  induction d as [|[k' v'] d IH]; simpl; [discriminate|].
  destruct (String.eqb k' k) eqn:E.
  - intros [= ->]. reflexivity.
  - intros H. now rewrite IH.
Qed.

Lemma filter_all {A} (p : A -> bool) (l : list A) :
  (forall x, In x l -> p x = true) -> filter p l = l.
Proof.
  induction l as [|x l IH]; simpl; intros H; [reflexivity|].
  rewrite (H x (or_introl eq_refl)). f_equal. apply IH.
  intros y Hy. apply H. now right.
Qed.

(** ** The store's operators *)

Lemma update_one_no_match q u (c : Mongo.collection) :
  Mongo.find_one q c = None ->
  Mongo.update_one q u c = Ok (c, Mongo.mkUpdateResult 0 0).
Proof.
  unfold Mongo.find_one.
  induction c as [|d c IH]; simpl; [reflexivity|].
  destruct (q d); [discriminate|].
  intros H. now rewrite (IH H).
Qed.

Lemma update_one_unchanged q u (c : Mongo.collection) (d : document) :
  Mongo.find_one q c = Some d ->
  u d = Ok d ->
  Mongo.update_one q u c = Ok (c, Mongo.mkUpdateResult 1 0).
Proof.
  unfold Mongo.find_one.
  induction c as [|d0 c IH]; simpl; [discriminate|].
  destruct (q d0).
  - intros [= ->] ->. simpl. now rewrite dict_eqb_refl.
  - intros H U. now rewrite (IH H U).
Qed.

Lemma update_one_changed q u (c : Mongo.collection) (d d' : document) :
  Mongo.find_one q c = Some d ->
  u d = Ok d' ->
  d' <> d ->
  q d' = true ->
  exists c',
    Mongo.update_one q u c = Ok (c', Mongo.mkUpdateResult 1 1)
    /\ Mongo.find_one q c' = Some d'
    /\ length c' = length c.
Proof.
  unfold Mongo.find_one.
  induction c as [|d0 c IH]; simpl; [discriminate|].
  destruct (q d0) eqn:Q.
  - intros [= ->] U N Q'. rewrite U. simpl.
    destruct (Py.dict_eqb d d') eqn:E.
    + apply dict_eqb_eq in E. congruence.
    + exists (d' :: c). simpl. now rewrite Q'.
  - intros H U N Q'. destruct (IH H U N Q') as (c' & E & F & L).
    rewrite E. simpl. exists (d0 :: c'). simpl. rewrite Q.
    repeat split; [exact F | now rewrite L].
Qed.

Lemma pull_absent (o : oid) (d : document) (l : list value) :
  Py.get d "armyMembers" (VList []) = VList l ->
  (forall e, In e l -> Mongo.elem_has_id o e = false) ->
  Mongo.pull "armyMembers" o d = Ok d.
Proof.
  unfold Py.get, Mongo.pull.
  destruct (Py.lookup d "armyMembers") as [v|] eqn:L; [|reflexivity].
  intros -> H. rewrite filter_all.
  - now rewrite (setitem_same _ _ _ L).
  - intros e He. now rewrite (H e He).
Qed.

Lemma db_eta (s : KingdomDAL.db) :
  KingdomDAL.mkdb (KingdomDAL.kingdom_collection s)
                  (KingdomDAL.clan_collection s) = s.
Proof. now destruct s. Qed.

Ltac run_dal :=
  unfold KingdomDAL.bind, KingdomDAL.lift, KingdomDAL.ret, KingdomDAL.raise,
         KingdomDAL.clans, KingdomDAL.kingdoms, KingdomDAL.put_clans,
         KingdomDAL.put_kingdoms; simpl.

(** ** add_armymember on an unknown clan *)

(** C10.  When no Clan document has the identifier [clan_id],
    [add_armymember] leaves the whole database as it was (no document is
    created: the array-append runs with upsert disabled) and returns
    nothing. *)
Theorem add_armymember_unknown_clan
    (str : value -> string) (fromisoformat : string -> option datetime)
    (s : KingdomDAL.db) (new_id : oid) (now1 now2 : datetime)
    (clan_id : Bson.ident) (o : oid)
    (nickname email password rank : string) :
  Bson.ObjectId clan_id = Ok o ->
  Mongo.find_one (Mongo.has_id o) (KingdomDAL.clan_collection s) = None ->
  KingdomDAL.add_armymember str fromisoformat new_id now1 now2 clan_id
    nickname email password rank s
  = (s, Ok None).
Proof.
  intros Hid Hnone.
  unfold KingdomDAL.add_armymember. run_dal.
  rewrite Hid.
  rewrite (update_one_no_match _ _ _ Hnone). simpl.
  now rewrite db_eta.
Qed.

(** ** remove_armymember of a member that is not there *)

(** C5.  When the clan's member array, [doc.get("armyMembers", [])], holds
    no element whose identifier is [member_id], [remove_armymember] returns
    false and leaves the database, and so the clan's member array,
    unchanged. *)
Theorem remove_armymember_absent
    (s : KingdomDAL.db) (clan_id : Bson.ident) (member_id : string)
    (o m : oid) (d : document) (l : list value) :
  Bson.ObjectId clan_id = Ok o ->
  Bson.ObjectId (Bson.IdStr member_id) = Ok m ->
  Mongo.find_one (Mongo.has_id o) (KingdomDAL.clan_collection s) = Some d ->
  Py.get d "armyMembers" (VList []) = VList l ->
  (forall e, In e l -> Mongo.elem_has_id m e = false) ->
  KingdomDAL.remove_armymember clan_id member_id s = (s, Ok false).
Proof.
  intros Hid Hm Hd Hl Habs.
  unfold KingdomDAL.remove_armymember. run_dal.
  rewrite Hid. unfold Bson.ObjectId in Hm. rewrite Hm.
  rewrite (update_one_unchanged _ _ _ d Hd (pull_absent m d l Hl Habs)).
  simpl. now rewrite db_eta.
Qed.

(** ** update_clan *)

Ltac step_dal :=
  cbv beta iota zeta
      delta [KingdomDAL.bind KingdomDAL.lift KingdomDAL.ret KingdomDAL.raise
             KingdomDAL.clans KingdomDAL.kingdoms KingdomDAL.put_clans
             KingdomDAL.put_kingdoms];
  cbn [fst snd KingdomDAL.clan_collection KingdomDAL.kingdom_collection].

Lemma lookup_set_fields_other (fs : list (string * value)) (d : document)
    (k : string) :
  (forall kv, In kv fs -> fst kv <> k) ->
  Py.lookup (Mongo.set_fields fs d) k = Py.lookup d k.
Proof.
  unfold Mongo.set_fields. revert d.
  induction fs as [|[k0 v0] fs IH]; intros d H; simpl; [reflexivity|].
  rewrite IH.
  - apply lookup_setitem_other. apply (H (k0, v0)). now left.
  - intros kv Hkv. apply H. now right.
Qed.

Lemma has_id_set_fields (o : oid) (fs : list (string * value)) (d : document) :
  (forall kv, In kv fs -> fst kv <> "_id") ->
  Mongo.has_id o (Mongo.set_fields fs d) = Mongo.has_id o d.
Proof.
  intros H. unfold Mongo.has_id. now rewrite lookup_set_fields_other.
Qed.

Lemma find_one_and_update_found q u (c : Mongo.collection) (d d' : document) :
  Mongo.find_one q c = Some d ->
  u d = Ok d' ->
  q d' = true ->
  exists c',
    Mongo.find_one_and_update q u c = Ok (c', Some d')
    /\ Mongo.find_one q c' = Some d'.
Proof.
  unfold Mongo.find_one.
  induction c as [|d0 c IH]; simpl; [discriminate|].
  destruct (q d0) eqn:Q.
  - intros [= ->] U Q'. rewrite U. simpl.
    exists (d' :: c). simpl. now rewrite Q'.
  - intros H U Q'. destruct (IH H U Q') as (c' & E & F).
    rewrite E. simpl. exists (d0 :: c'). simpl. now rewrite Q.
Qed.

Lemma find_one_holds q (c : Mongo.collection) (d : document) :
  Mongo.find_one q c = Some d -> q d = true.
Proof. intros H. now apply find_some in H. Qed.

Lemma update_fields_keys name description kv :
  In kv (KingdomDAL.update_fields name description) ->
  fst kv = "clanName" \/ fst kv = "description".
Proof.
  unfold KingdomDAL.update_fields. intros H. apply in_app_or in H as [H|H].
  - destruct name as [n|]; [|contradiction].
    destruct (Py.truthy (VStr n)); [|contradiction].
    destruct H as [<-|[]]. now left.
  - destruct description as [x|]; [|contradiction].
    destruct H as [<-|[]]. now right.
Qed.

(** The database after [update_clan] on an existing clan: the kingdoms are
    untouched and the clan, still found under its identifier, holds the
    fields of the update on top of its former fields. *)
Lemma update_clan_store
    (str : value -> string) (fromisoformat : string -> option datetime)
    (rejects_empty_update : bool)
    (s : KingdomDAL.db) (clan_id : Bson.ident) (o : oid) (d : document)
    (name description : option string) :
  Bson.ObjectId clan_id = Ok o ->
  Mongo.find_one (Mongo.has_id o) (KingdomDAL.clan_collection s) = Some d ->
  let s' := fst (KingdomDAL.update_clan str fromisoformat rejects_empty_update
                   clan_id name description s) in
  KingdomDAL.kingdom_collection s' = KingdomDAL.kingdom_collection s
  /\ Mongo.find_one (Mongo.has_id o) (KingdomDAL.clan_collection s')
     = Some (Mongo.set_fields (KingdomDAL.update_fields name description) d).
Proof.
  intros Hid Hd s'. subst s'.
  assert (Hq : Mongo.has_id o
                 (Mongo.set_fields (KingdomDAL.update_fields name description) d) = true).
  { rewrite has_id_set_fields; [now apply find_one_holds in Hd|].
    intros kv Hkv. apply update_fields_keys in Hkv as [-> | ->]; discriminate. }
  destruct (find_one_and_update_found _
              (fun d => Ok (Mongo.set_fields (KingdomDAL.update_fields name description) d))
              _ d _ Hd eq_refl Hq) as (c' & E & F).
  unfold KingdomDAL.update_clan.
  step_dal. rewrite Hid.
  destruct (KingdomDAL.update_fields name description) as [|f fs] eqn:Ef.
  - destruct rejects_empty_update; step_dal.
    + split; [reflexivity|]. exact Hd.
    + rewrite E. step_dal.
      destruct (KingdomDAL.found _); [|split; [reflexivity|exact F]].
      destruct (KingdomDAL.hydrate str fromisoformat _);
        split; try reflexivity; exact F.
  - step_dal. rewrite E. step_dal.
    destruct (KingdomDAL.found _); [|split; [reflexivity|exact F]].
    destruct (KingdomDAL.hydrate str fromisoformat _);
      split; try reflexivity; exact F.
Qed.

(** C3.  On an existing clan, [update_clan] with an empty-string name
    leaves the stored name as it was (and so does an omitted name), while a
    truthy name replaces it; a description that is supplied, the empty
    string included, becomes the stored description, and an omitted one
    leaves it as it was. *)
Theorem update_clan_name_truthy_description_supplied
    (str : value -> string) (fromisoformat : string -> option datetime)
    (rejects_empty_update : bool)
    (s : KingdomDAL.db) (clan_id : Bson.ident) (o : oid) (d : document)
    (name description : option string) :
  Bson.ObjectId clan_id = Ok o ->
  Mongo.find_one (Mongo.has_id o) (KingdomDAL.clan_collection s) = Some d ->
  let s' := fst (KingdomDAL.update_clan str fromisoformat rejects_empty_update
                   clan_id name description s) in
  exists d',
    Mongo.find_one (Mongo.has_id o) (KingdomDAL.clan_collection s') = Some d'
    /\ (name = Some "" \/ name = None ->
        Py.lookup d' "clanName" = Py.lookup d "clanName")
    /\ (forall n, name = Some n -> n <> "" ->
        Py.lookup d' "clanName" = Some (VStr n))
    /\ (forall x, description = Some x ->
        Py.lookup d' "description" = Some (VStr x))
    /\ (description = None ->
        Py.lookup d' "description" = Py.lookup d "description").
Proof.
  intros Hid Hd s'.
  destruct (update_clan_store str fromisoformat rejects_empty_update s clan_id
              o d name description Hid Hd) as [_ F].
  fold s' in F.
  exists (Mongo.set_fields (KingdomDAL.update_fields name description) d).
  split; [exact F|]. clear F s'.
  unfold KingdomDAL.update_fields, Mongo.set_fields.
  repeat split.
  - intros [-> | ->]; destruct description; simpl;
      try reflexivity; now apply lookup_setitem_other.
  - intros n -> Hn. simpl.
    destruct (String.eqb n "") eqn:E;
      [apply String.eqb_eq in E; contradiction|].
    destruct description; simpl;
      [rewrite lookup_setitem_other by discriminate|];
      apply lookup_setitem_same.
  - intros x ->.
    destruct name as [n|]; [destruct (Py.truthy (VStr n))|]; simpl;
      apply lookup_setitem_same.
  - intros ->. rewrite app_nil_r.
    destruct name as [n|]; [destruct (Py.truthy (VStr n))|]; simpl;
      try reflexivity; now apply lookup_setitem_other.
Qed.

Lemma update_clan_name_truthy_description_supplied_witness :
  Bson.ObjectId (Bson.IdOid Example.stark_id) = Ok Example.stark_id
  /\ Mongo.find_one (Mongo.has_id Example.stark_id)
       (KingdomDAL.clan_collection Example.realm) = Some Example.stark
  /\ exists d',
       Mongo.find_one (Mongo.has_id Example.stark_id)
         (KingdomDAL.clan_collection
            (fst (KingdomDAL.update_clan Example.str Example.fromisoformat
                    true (Bson.IdOid Example.stark_id) (Some "") (Some "")
                    Example.realm)))
       = Some d'
       /\ Py.lookup d' "clanName" = Some (VStr "Stark")
       /\ Py.lookup d' "description" = Some (VStr "").
Proof.
  split; [reflexivity|]. split; [reflexivity|].
  destruct (update_clan_name_truthy_description_supplied
              Example.str Example.fromisoformat true Example.realm
              (Bson.IdOid Example.stark_id) Example.stark_id Example.stark
              (Some "") (Some "") eq_refl eq_refl)
    as (d' & F & Hname & _ & Hdesc & _).
  exists d'. split; [exact F|]. split.
  - rewrite Hname; [reflexivity | now left].
  - now apply Hdesc.
Defined.

Lemma add_armymember_unknown_clan_witness :
  Bson.ObjectId (Bson.IdOid Example.tully_id) = Ok Example.tully_id
  /\ Mongo.find_one (Mongo.has_id Example.tully_id)
       (KingdomDAL.clan_collection Example.realm) = None
  /\ KingdomDAL.add_armymember Example.str Example.fromisoformat
       Example.arya_id 1%Z 2%Z (Bson.IdOid Example.tully_id)
       "arya" "arya@braavos.example" "needle" "recruit" Example.realm
     = (Example.realm, Ok None).
Proof.
  split; [reflexivity|]. split; [reflexivity|].
  apply (add_armymember_unknown_clan Example.str Example.fromisoformat
           Example.realm Example.arya_id 1%Z 2%Z
           (Bson.IdOid Example.tully_id) Example.tully_id);
    reflexivity.
Defined.

Lemma remove_armymember_absent_witness :
  Bson.ObjectId (Bson.IdOid Example.stark_id) = Ok Example.stark_id
  /\ Bson.ObjectId (Bson.IdStr Example.arya_id) = Ok Example.arya_id
  /\ Mongo.find_one (Mongo.has_id Example.stark_id)
       (KingdomDAL.clan_collection Example.realm) = Some Example.stark
  /\ Py.get Example.stark "armyMembers" (VList []) = VList [VDict Example.jon]
  /\ (forall e, In e [VDict Example.jon] ->
        Mongo.elem_has_id Example.arya_id e = false)
  /\ KingdomDAL.remove_armymember (Bson.IdOid Example.stark_id)
       Example.arya_id Example.realm
     = (Example.realm, Ok false).
Proof.
  assert (H : forall e, In e [VDict Example.jon] ->
                Mongo.elem_has_id Example.arya_id e = false).
  { intros e [<- | []]. reflexivity. }
  repeat (split; [first [reflexivity | exact H]|]).
  apply (remove_armymember_absent Example.realm (Bson.IdOid Example.stark_id)
           Example.arya_id Example.stark_id Example.arya_id Example.stark
           [VDict Example.jon]);
    first [reflexivity | exact H].
Defined.

(** ** The conversions that every read goes through *)

(** The name [ArmyMember] is bound nowhere in [dal.py]. *)
Lemma ArmyMember_unbound str fromisoformat (doc : value) :
  KingdomDAL.ArmyMember_from_doc str fromisoformat doc
  = Raise (NameError "ArmyMember").
Proof. reflexivity. Qed.

Lemma army_members_cases str fromisoformat (doc : document) :
  KingdomDAL.army_members str fromisoformat doc
  = match Py.iter (Py.get doc "armyMembers" (VList [])) with
    | Ok [] => Ok []
    | Ok (_ :: _) => Raise (NameError "ArmyMember")
    | Raise e => Raise e
    end.
Proof.
  unfold KingdomDAL.army_members.
  destruct (Py.iter _) as [[|x l]|e]; reflexivity.
Qed.

(** [Clan] declares no field [armyMembers]. *)
Lemma set_armyMembers_refused (c : Clan.t) (members : list document) :
  Clan.set_armyMembers c members = Raise ValueError.
Proof. reflexivity. Qed.

(** No clan document gets through [hydrate]. *)
Lemma hydrate_raises str fromisoformat (doc : document) :
  exists e, KingdomDAL.hydrate str fromisoformat doc = Raise e.
Proof.
  unfold KingdomDAL.hydrate.
  destruct (Clan.from_doc str (VDict doc)) as [c|e]; simpl; [|now exists e].
  rewrite army_members_cases.
  destruct (Py.iter _) as [[|x l]|e]; simpl; eauto.
Qed.

(** A clan document with its name, a string description and an empty
    member array stops at the assignment of [armyMembers]. *)
Lemma hydrate_empty_clan str fromisoformat (doc : document) (i : value)
    (n : string) :
  Py.lookup doc "_id" = Some i ->
  Py.lookup doc "clanName" = Some (VStr n) ->
  (exists x, Py.get doc "description" (VStr "") = VStr x) ->
  Py.get doc "armyMembers" (VList []) = VList [] ->
  KingdomDAL.hydrate str fromisoformat doc = Raise ValueError.
Proof.
  intros Hi Hn [x Hx] Hm.
  unfold KingdomDAL.hydrate, Clan.from_doc, Py.getitem. simpl.
  rewrite Hi, Hn. simpl. rewrite Hx. simpl.
  rewrite army_members_cases, Hm. reflexivity.
Qed.

Lemma KingdomSummary_from_doc_raises str (doc : value) :
  exists e, KingdomSummary.from_doc str doc = Raise e.
Proof.
  unfold KingdomSummary.from_doc.
  destruct (Py.as_dict doc) as [d|e]; simpl; [|now exists e].
  destruct (Py.getitem d "_id") as [i|e]; simpl; [|now exists e].
  destruct (Py.getitem d "name") as [n|e]; simpl; [|now exists e].
  now exists (NameError "clanCount").
Qed.

(** ** list_kingdoms *)

(** C1.  [list_kingdoms] returns a list only when there is no Kingdom
    document: as soon as the collection holds one, the summary of the first
    one cannot be built and the call raises.  In particular, after
    [create_kingdom] on an empty database the listing raises
    [NameError: clanCount] where a summary with [clan_count == 0] was
    expected. *)
Theorem list_kingdoms_raises
    (str : value -> string) (fromisoformat : string -> option datetime) :
  (forall k rest cl,
      exists e,
        KingdomDAL.list_kingdoms str fromisoformat
          (KingdomDAL.mkdb (k :: rest) cl)
        = (KingdomDAL.mkdb (k :: rest) cl, Raise e))
  /\ (forall cl,
        KingdomDAL.list_kingdoms str fromisoformat (KingdomDAL.mkdb [] cl)
        = (KingdomDAL.mkdb [] cl, Ok []))
  /\ (forall new_id name,
        let s := fst (KingdomDAL.create_kingdom new_id name
                        (KingdomDAL.mkdb [] [])) in
        KingdomDAL.kingdom_collection s
        = [[("_id", VOid new_id); ("name", VStr name)]]
        /\ KingdomDAL.clan_collection s = []
        /\ KingdomDAL.list_kingdoms str fromisoformat s
           = (s, Raise (NameError "clanCount"))).
Proof.
  split; [|split].
  - intros k rest cl.
    destruct (KingdomSummary_from_doc_raises str
                (VDict (Mongo.project_name k))) as [e He].
    exists e. unfold KingdomDAL.list_kingdoms. step_dal.
    cbn [Mongo.find filter map KingdomDAL.for_each]. step_dal.
    now rewrite He.
  - intros cl. reflexivity.
  - intros new_id name. cbv zeta. repeat split; reflexivity.
Qed.

(** ** list_clans and get_kingdom *)

Lemma list_clans_none str fromisoformat (o : oid) (s : KingdomDAL.db) :
  Mongo.find (Mongo.field_is "kingdomId" o) (KingdomDAL.clan_collection s)
  = [] ->
  KingdomDAL.list_clans str fromisoformat (Bson.IdOid o) s = (s, Ok []).
Proof.
  intros H. unfold KingdomDAL.list_clans. step_dal.
  cbn [Bson.ObjectId]. now rewrite H.
Qed.

Lemma list_clans_some str fromisoformat (o : oid) (s : KingdomDAL.db)
    (c : document) (rest : list document) :
  Mongo.find (Mongo.field_is "kingdomId" o) (KingdomDAL.clan_collection s)
  = c :: rest ->
  exists e,
    KingdomDAL.hydrate str fromisoformat c = Raise e
    /\ KingdomDAL.list_clans str fromisoformat (Bson.IdOid o) s
       = (s, Raise e).
Proof.
  intros H. destruct (hydrate_raises str fromisoformat c) as [e He].
  exists e. split; [exact He|].
  unfold KingdomDAL.list_clans. step_dal.
  cbn [Bson.ObjectId]. rewrite H.
  cbn [KingdomDAL.for_each]. step_dal. now rewrite He.
Qed.

Lemma has_id_lookup (o : oid) (d : document) :
  Mongo.has_id o d = true -> Py.lookup d "_id" = Some (VOid o).
Proof.
  unfold Mongo.has_id. destruct (Py.lookup d "_id") as [[]|]; simpl;
    try discriminate.
  intros E. apply String.eqb_eq in E. now subst.
Qed.

Lemma found_by_id (o : oid) (d : document) :
  Mongo.has_id o d = true -> KingdomDAL.found (Some d) = true.
Proof.
  intros H. apply has_id_lookup in H. destruct d; [discriminate|reflexivity].
Qed.

(** C8.  [get_kingdom] returns the absent result, without raising, when no
    Kingdom document has the identifier, and the kingdom with an empty clan
    list when it has no clan.  When the kingdom has a clan, the call raises
    the exception that stops the conversion of its first clan, and returns
    nothing. *)
Theorem get_kingdom_cases
    (str : value -> string) (fromisoformat : string -> option datetime)
    (s : KingdomDAL.db) (id : Bson.ident) (o : oid) :
  Bson.ObjectId id = Ok o ->
  match Mongo.find_one (Mongo.has_id o) (KingdomDAL.kingdom_collection s) with
  | None => KingdomDAL.get_kingdom str fromisoformat id s = (s, Ok None)
  | Some d =>
      match Mongo.find (Mongo.field_is "kingdomId" o)
              (KingdomDAL.clan_collection s) with
      | [] =>
          KingdomDAL.get_kingdom str fromisoformat id s
          = (s, Ok (Some (Py.setitem d "clans" (VList []))))
      | c :: _ =>
          exists e,
            KingdomDAL.hydrate str fromisoformat c = Raise e
            /\ KingdomDAL.get_kingdom str fromisoformat id s = (s, Raise e)
      end
  end.
Proof.
  intros Hid.
  unfold KingdomDAL.get_kingdom. step_dal. rewrite Hid.
  destruct (Mongo.find_one _ _) as [d|] eqn:F; [|reflexivity].
  pose proof (find_one_holds _ _ _ F) as Hd.
  rewrite (found_by_id o d Hd).
  unfold Py.getitem. rewrite (has_id_lookup o d Hd).
  cbn [KingdomDAL.ident_of].
  destruct (Mongo.find _ _) as [|c rest] eqn:L.
  - rewrite (list_clans_none str fromisoformat o s L). reflexivity.
  - destruct (list_clans_some str fromisoformat o s c rest L) as (e & He & E).
    exists e. split; [exact He|]. now rewrite E.
Qed.

Lemma get_kingdom_cases_witness :
  Bson.ObjectId (Bson.IdOid Example.westeros_id) = Ok Example.westeros_id
  /\ KingdomDAL.get_kingdom Example.str Example.fromisoformat
       (Bson.IdOid Example.westeros_id) Example.realm
     = (Example.realm, Raise (NameError "ArmyMember"))
  /\ KingdomDAL.get_kingdom Example.str Example.fromisoformat
       (Bson.IdOid Example.westeros_id) Example.riverlands
     = (Example.riverlands, Raise ValueError).
Proof.
  split; [reflexivity|]. split.
  - destruct (get_kingdom_cases Example.str Example.fromisoformat
                Example.realm (Bson.IdOid Example.westeros_id)
                Example.westeros_id eq_refl) as (e & He & E).
    rewrite E. vm_compute in He. now inversion He.
  - destruct (get_kingdom_cases Example.str Example.fromisoformat
                Example.riverlands (Bson.IdOid Example.westeros_id)
                Example.westeros_id eq_refl) as (e & He & E).
    rewrite E. vm_compute in He. now inversion He.
Defined.

(** ** ObjectId *)

Lemma lower_hex_char (c : ascii) :
  Bson.is_lower_hex c = true -> Bson.is_hex c = true /\ Bson.lower c = c.
Proof.
  destruct c as [[] [] [] [] [] [] [] []]; intros H; cbv in H;
    try discriminate H; split; reflexivity.
Qed.

Lemma lower_hex_string (s : string) :
  forallb Bson.is_lower_hex (list_ascii_of_string s) = true ->
  forallb Bson.is_hex (list_ascii_of_string s) = true
  /\ string_of_list_ascii (map Bson.lower (list_ascii_of_string s)) = s.
Proof.
  induction s as [|c s IH]; [now split|].
  cbn [list_ascii_of_string forallb map string_of_list_ascii].
  intros H. apply andb_true_iff in H as [Hc Hs].
  destruct (lower_hex_char c Hc) as [Hh Hl].
  destruct (IH Hs) as [IH1 IH2].
  rewrite Hh, Hl, IH1, IH2. now split.
Qed.

(** [ObjectId(str(o)) == o]. *)
Lemma ObjectId_of_str (o : oid) :
  Bson.canonical o = true -> Bson.ObjectId (Bson.IdStr o) = Ok o.
Proof.
  unfold Bson.canonical, Bson.ObjectId, Bson.is_valid.
  intros H. apply andb_true_iff in H as [Hlen Hhex].
  destruct (lower_hex_string o Hhex) as [H1 H2].
  now rewrite Hlen, H1, H2.
Qed.

(** ** create_clan and get_clan *)

Lemma find_one_app_fresh q (c : Mongo.collection) (d : document) :
  existsb q c = false -> q d = true -> Mongo.find_one q (c ++ [d]) = Some d.
Proof.
  unfold Mongo.find_one.
  induction c as [|x c IH]; simpl; intros H Q.
  - now rewrite Q.
  - apply orb_false_iff in H as [Hx Hc]. rewrite Hx. now apply IH.
Qed.

Lemma get_clan_found_raises str fromisoformat (s : KingdomDAL.db)
    (id : Bson.ident) (o : oid) (d : document) :
  Bson.ObjectId id = Ok o ->
  Mongo.find_one (Mongo.has_id o) (KingdomDAL.clan_collection s) = Some d ->
  exists e,
    KingdomDAL.hydrate str fromisoformat d = Raise e
    /\ KingdomDAL.get_clan str fromisoformat id s = (s, Raise e).
Proof.
  intros Hid F. destruct (hydrate_raises str fromisoformat d) as [e He].
  exists e. split; [exact He|].
  unfold KingdomDAL.get_clan. step_dal. rewrite Hid, F.
  rewrite (found_by_id o d (find_one_holds _ _ _ F)). now rewrite He.
Qed.

(** What [get_clan] returns on its last line is [clan.dict()], whose keys
    are id, name and description: [create_clan] and [get_kingdom], which
    hand such a dict to [Clan.from_doc], would stop at [doc["_id"]]. *)
Lemma Clan_from_doc_of_dict (str : value -> string) (c : Clan.t) :
  Clan.from_doc str (VDict (Clan.dict c)) = Raise (KeyError "_id").
Proof. reflexivity. Qed.

(** C7.  [create_clan] inserts a Clan document with the new identifier, the
    kingdom's identifier, the given name and description and an empty
    member array.  It then re-reads the clan through [get_clan], which
    raises at the assignment of [armyMembers]: the call ends in a
    ValueError and returns no Clan. *)
Theorem create_clan_inserts_then_raises
    (str : value -> string) (fromisoformat : string -> option datetime)
    (s : KingdomDAL.db) (new_id : oid) (kingdom_id : Bson.ident) (k : oid)
    (clan_name description : string) :
  Bson.ObjectId kingdom_id = Ok k ->
  Bson.canonical new_id = true ->
  existsb (Mongo.has_id new_id) (KingdomDAL.clan_collection s) = false ->
  KingdomDAL.create_clan str fromisoformat new_id kingdom_id clan_name
    description s
  = (KingdomDAL.mkdb (KingdomDAL.kingdom_collection s)
       (KingdomDAL.clan_collection s
        ++ [[ ("_id", VOid new_id);
              ("kingdomId", VOid k);
              ("clanName", VStr clan_name);
              ("description", VStr description);
              ("armyMembers", VList []) ]]),
     Raise ValueError).
Proof.
  intros Hk Hcanon Hfresh.
  unfold KingdomDAL.create_clan. step_dal. rewrite Hk.
  unfold Mongo.insert_one. rewrite Hfresh.
  unfold KingdomDAL.get_clan. step_dal.
  rewrite (ObjectId_of_str new_id Hcanon).
  rewrite (find_one_app_fresh _ _ _ Hfresh)
    by (unfold Mongo.has_id; simpl; now rewrite String.eqb_refl).
  cbn [KingdomDAL.found Py.truthy].
  rewrite (hydrate_empty_clan str fromisoformat _ (VOid new_id) clan_name);
    try reflexivity.
  now exists description.
Qed.

Lemma create_clan_inserts_then_raises_witness :
  Bson.ObjectId (Bson.IdOid Example.westeros_id) = Ok Example.westeros_id
  /\ Bson.canonical Example.tully_id = true
  /\ existsb (Mongo.has_id Example.tully_id)
       (KingdomDAL.clan_collection Example.realm) = false
  /\ KingdomDAL.create_clan Example.str Example.fromisoformat
       Example.tully_id (Bson.IdOid Example.westeros_id) "Tully" ""
       Example.realm
     = (KingdomDAL.mkdb [Example.westeros] [Example.stark; Example.tully],
        Raise ValueError).
Proof.
  repeat (split; [reflexivity|]).
  apply (create_clan_inserts_then_raises Example.str Example.fromisoformat
           Example.realm Example.tully_id (Bson.IdOid Example.westeros_id)
           Example.westeros_id "Tully" "");
    reflexivity.
Defined.

(** ** delete_kingdom *)

Lemma delete_one_cases q (c : Mongo.collection) :
  match Mongo.find_one q c with
  | Some d =>
      exists pre post,
        c = pre ++ d :: post
        /\ (forall x, In x pre -> q x = false)
        /\ Mongo.delete_one q c = (pre ++ post, 1%nat)
  | None => Mongo.delete_one q c = (c, 0%nat)
  end.
Proof.
  unfold Mongo.find_one.
  induction c as [|x c IH]; simpl; [reflexivity|].
  destruct (q x) eqn:Q.
  - exists [], c. repeat split. intros y [].
  - destruct (find q c) as [d|].
    + destruct IH as (pre & post & -> & Hpre & E).
      exists (x :: pre), post. rewrite E. repeat split.
      intros y [<-|Hy]; [exact Q | now apply Hpre].
    + now rewrite IH.
Qed.

(** C6.  [delete_kingdom] returns true when it removed one Kingdom document
    (the first with the identifier) and false when it removed none, and the
    clans collection after the call is the one before it: every clan is
    still stored under its identifier.  Fetching such a clan with
    [get_clan] raises, after the deletion as before it. *)
Theorem delete_kingdom_keeps_clans
    (str : value -> string) (fromisoformat : string -> option datetime)
    (s : KingdomDAL.db) (id : Bson.ident) (o : oid) :
  Bson.ObjectId id = Ok o ->
  let s' := fst (KingdomDAL.delete_kingdom id s) in
  let r := snd (KingdomDAL.delete_kingdom id s) in
  KingdomDAL.clan_collection s' = KingdomDAL.clan_collection s
  /\ ((r = Ok true
       /\ exists pre d post,
            KingdomDAL.kingdom_collection s = pre ++ d :: post
            /\ Mongo.has_id o d = true
            /\ KingdomDAL.kingdom_collection s' = pre ++ post)
      \/ (r = Ok false
          /\ Mongo.find_one (Mongo.has_id o) (KingdomDAL.kingdom_collection s)
             = None
          /\ KingdomDAL.kingdom_collection s'
             = KingdomDAL.kingdom_collection s))
  /\ (forall cid c d,
        Bson.ObjectId cid = Ok c ->
        Mongo.find_one (Mongo.has_id c) (KingdomDAL.clan_collection s)
        = Some d ->
        Mongo.find_one (Mongo.has_id c) (KingdomDAL.clan_collection s')
        = Some d
        /\ exists e,
             KingdomDAL.get_clan str fromisoformat cid s' = (s', Raise e)).
Proof.
  intros Hid s' r.
  assert (E : KingdomDAL.delete_kingdom id s
              = (KingdomDAL.mkdb
                   (fst (Mongo.delete_one (Mongo.has_id o)
                           (KingdomDAL.kingdom_collection s)))
                   (KingdomDAL.clan_collection s),
                 Ok (Nat.eqb
                       (snd (Mongo.delete_one (Mongo.has_id o)
                               (KingdomDAL.kingdom_collection s))) 1))).
  { unfold KingdomDAL.delete_kingdom. step_dal. rewrite Hid.
    now destruct (Mongo.delete_one _ _). }
  subst s' r. rewrite E. cbn [fst snd KingdomDAL.clan_collection
                               KingdomDAL.kingdom_collection].
  split; [reflexivity|]. split.
  - pose proof (delete_one_cases (Mongo.has_id o)
                  (KingdomDAL.kingdom_collection s)) as C.
    destruct (Mongo.find_one _ _) as [d|] eqn:F.
    + destruct C as (pre & post & Hc & _ & D). left. rewrite D.
      split; [reflexivity|]. exists pre, d, post.
      repeat split; [exact Hc | exact (find_one_holds _ _ _ F)].
    + right. rewrite C. now repeat split.
  - intros cid c d Hc F. split; [exact F|].
    destruct (get_clan_found_raises str fromisoformat
                (KingdomDAL.mkdb
                   (fst (Mongo.delete_one (Mongo.has_id o)
                           (KingdomDAL.kingdom_collection s)))
                   (KingdomDAL.clan_collection s))
                cid c d Hc F) as (e & _ & G).
    now exists e.
Qed.

Lemma delete_kingdom_keeps_clans_witness :
  Bson.ObjectId (Bson.IdOid Example.westeros_id) = Ok Example.westeros_id
  /\ KingdomDAL.delete_kingdom (Bson.IdOid Example.westeros_id) Example.realm
     = (KingdomDAL.mkdb [] [Example.stark], Ok true)
  /\ Mongo.find_one (Mongo.has_id Example.stark_id) [Example.stark]
     = Some Example.stark
  /\ exists e,
       KingdomDAL.get_clan Example.str Example.fromisoformat
         (Bson.IdOid Example.stark_id) (KingdomDAL.mkdb [] [Example.stark])
       = (KingdomDAL.mkdb [] [Example.stark], Raise e).
Proof.
  split; [reflexivity|]. split; [reflexivity|].
  destruct (delete_kingdom_keeps_clans Example.str Example.fromisoformat
              Example.realm (Bson.IdOid Example.westeros_id)
              Example.westeros_id eq_refl) as (_ & _ & H).
  exact (H (Bson.IdOid Example.stark_id) Example.stark_id Example.stark
           eq_refl eq_refl).
Defined.

(** ** add_armymember on an existing clan *)

Lemma push_appends (v : value) (d d' : document) :
  Mongo.push "armyMembers" v d = Ok d' ->
  d' = Py.setitem d "armyMembers" (VList (Mongo.members_before d ++ [v])).
Proof.
  unfold Mongo.push, Mongo.members_before.
  destruct (Py.lookup d "armyMembers") as [[]|]; try discriminate;
    now intros [= <-].
Qed.

Lemma push_changes (v : value) (d d' : document) :
  Mongo.push "armyMembers" v d = Ok d' -> d' <> d.
Proof.
  intros H E. pose proof (push_appends v d d' H) as P. subst d'.
  assert (L : Py.lookup d "armyMembers"
              = Some (VList (Mongo.members_before d ++ [v]))).
  { rewrite P at 1. apply lookup_setitem_same. }
  unfold Mongo.members_before in L.
  destruct (Py.lookup d "armyMembers") as [[]|]; try discriminate.
  injection L as L. apply (f_equal (@length value)) in L.
  rewrite length_app in L. simpl in L. lia.
Qed.

(** C4.  On an existing clan whose [armyMembers] can be appended to,
    [add_armymember] appends the new member, whose document carries the new
    identifier, [memberOf] equal to the one-element list of the clan's
    identifier, the two clock readings as registration and last-login
    timestamps and empty or false values elsewhere.  The append reports a
    modification, the method then evaluates the unbound name [ArmyMember]:
    the call ends in a NameError and returns no member. *)
Theorem add_armymember_appends_then_raises
    (str : value -> string) (fromisoformat : string -> option datetime)
    (s : KingdomDAL.db) (new_id : oid) (now1 now2 : datetime)
    (clan_id : Bson.ident) (o : oid)
    (nickname email password rank : string) (d d' : document) :
  let member :=
    KingdomDAL.new_member new_id now1 now2 clan_id nickname email password
      rank in
  Bson.ObjectId clan_id = Ok o ->
  Mongo.find_one (Mongo.has_id o) (KingdomDAL.clan_collection s) = Some d ->
  Mongo.push "armyMembers" (VDict member) d = Ok d' ->
  member
  = [ ("_id", VOid new_id);
      ("nickname", VStr nickname);
      ("email", VStr email);
      ("password", VStr password);
      ("rank", VStr rank);
      ("memberOf", VList [VStr (Bson.str clan_id)]);
      ("status", VStr "");
      ("registrationDate", VDate now1);
      ("lastLogin", VDate now2);
      ("description", VStr "");
      ("phone", VStr "");
      ("imageAccess", VBool false);
      ("infoAccess", VBool false);
      ("manageAccess", VBool false);
      ("mediaAccess", VBool false) ]
  /\ exists c',
       KingdomDAL.add_armymember str fromisoformat new_id now1 now2 clan_id
         nickname email password rank s
       = (KingdomDAL.mkdb (KingdomDAL.kingdom_collection s) c',
          Raise (NameError "ArmyMember"))
       /\ Mongo.find_one (Mongo.has_id o) c' = Some d'
       /\ Py.lookup d' "armyMembers"
          = Some (VList (Mongo.members_before d ++ [VDict member])).
Proof.
  intros member Hid F P. split; [reflexivity|].
  assert (Hq : Mongo.has_id o d' = true).
  { rewrite (push_appends _ _ _ P). unfold Mongo.has_id.
    rewrite lookup_setitem_other by discriminate.
    exact (find_one_holds _ _ _ F). }
  destruct (update_one_changed _ _ _ d d' F P (push_changes _ _ _ P) Hq)
    as (c' & U & F' & _).
  exists c'. split; [|split; [exact F'|]].
  - unfold KingdomDAL.add_armymember. step_dal. rewrite Hid.
    fold member. rewrite U. reflexivity.
  - rewrite (push_appends _ _ _ P). apply lookup_setitem_same.
Qed.

Lemma add_armymember_appends_then_raises_witness :
  Bson.ObjectId (Bson.IdOid Example.stark_id) = Ok Example.stark_id
  /\ Mongo.find_one (Mongo.has_id Example.stark_id)
       (KingdomDAL.clan_collection Example.realm) = Some Example.stark
  /\ exists d',
       Mongo.push "armyMembers"
         (VDict (KingdomDAL.new_member Example.arya_id 1%Z 2%Z
                   (Bson.IdOid Example.stark_id) "arya"
                   "arya@braavos.example" "needle" "recruit"))
         Example.stark = Ok d'
       /\ exists c',
            KingdomDAL.add_armymember Example.str Example.fromisoformat
              Example.arya_id 1%Z 2%Z (Bson.IdOid Example.stark_id) "arya"
              "arya@braavos.example" "needle" "recruit" Example.realm
            = (KingdomDAL.mkdb [Example.westeros] c',
               Raise (NameError "ArmyMember"))
            /\ Mongo.find_one (Mongo.has_id Example.stark_id) c' = Some d'.
Proof.
  split; [reflexivity|]. split; [reflexivity|].
  eexists. split; [reflexivity|].
  destruct (add_armymember_appends_then_raises Example.str
              Example.fromisoformat Example.realm Example.arya_id 1%Z 2%Z
              (Bson.IdOid Example.stark_id) Example.stark_id "arya"
              "arya@braavos.example" "needle" "recruit" Example.stark _
              eq_refl eq_refl eq_refl) as (_ & c' & E & F & _).
  exists c'. split; [exact E | exact F].
Defined.

(** Were [ArmyMember] bound to [Member], the conversion of the new member
    would still raise: its two dates are datetimes, not ISO strings. *)
Lemma Member_from_doc_new_member str fromisoformat (new_id : oid)
    (now1 now2 : datetime) (clan_id : Bson.ident)
    (nickname email password rank : string) :
  Member.from_doc str fromisoformat
    (VDict (KingdomDAL.new_member new_id now1 now2 clan_id nickname email
              password rank))
  = Raise TypeError.
Proof. reflexivity. Qed.

(** ** update_armymember *)

Lemma get_armymember_raises (s : KingdomDAL.db) (clan_id : Bson.ident)
    (member_id : string) :
  exists e, KingdomDAL.get_armymember clan_id member_id s = (s, Raise e).
Proof.
  unfold KingdomDAL.get_armymember. step_dal.
  destruct (Bson.ObjectId clan_id) as [o|e]; [|now exists e].
  now exists AttributeError.
Qed.

Lemma set_in_elements_no_match (o : oid) (fields : list (string * value))
    (d : document) (l : list value) :
  Py.lookup d "armyMembers" = Some (VList l) ->
  (forall e, In e l -> Mongo.elem_has_id o e = false) ->
  Mongo.set_in_elements "armyMembers" o fields d = Ok d.
Proof.
  intros L H. unfold Mongo.set_in_elements. rewrite L.
  rewrite (map_ext_in _ (fun e => e)).
  - now rewrite map_id, (setitem_same _ _ _ L).
  - intros e He. specialize (H e He). destruct e; try reflexivity.
    simpl in H. now rewrite H.
Qed.

(** When no element of the clan's array has the identifier, nothing is
    written and nothing is returned. *)
Lemma update_armymember_no_match
    (str : value -> string) (fromisoformat : string -> option datetime)
    (s : KingdomDAL.db) (clan_id : Bson.ident) (member_id : string)
    (o m : oid) (d : document) (l : list value)
    (nickname email password rank status : string)
    (registration_date last_login : datetime) (description phone : string)
    (image_access info_access manage_access media_access : bool) :
  Bson.ObjectId clan_id = Ok o ->
  Bson.ObjectId (Bson.IdStr member_id) = Ok m ->
  Mongo.find_one (Mongo.has_id o) (KingdomDAL.clan_collection s) = Some d ->
  Py.lookup d "armyMembers" = Some (VList l) ->
  (forall e, In e l -> Mongo.elem_has_id m e = false) ->
  KingdomDAL.update_armymember str fromisoformat clan_id member_id nickname
    email password rank status registration_date last_login description
    phone image_access info_access manage_access media_access s
  = (s, Ok None).
Proof.
  intros Hid Hm F L H.
  unfold KingdomDAL.update_armymember. step_dal. rewrite Hid, Hm.
  rewrite (update_one_unchanged _ _ _ d F
             (set_in_elements_no_match m _ d l L H)).
  cbn. now rewrite db_eta.
Qed.

(** C2.  [update_armymember] never returns a member.  On the clan of the
    example it sets the 13 fields of the matching array element in the
    store, and then, instead of re-reading the member, raises the
    AttributeError of [cursor.aggregate]. *)
Theorem update_armymember_never_returns
    (str : value -> string) (fromisoformat : string -> option datetime) :
  (forall s clan_id member_id nickname email password rank status
          registration_date last_login description phone image_access
          info_access manage_access media_access x,
      snd (KingdomDAL.update_armymember str fromisoformat clan_id member_id
             nickname email password rank status registration_date
             last_login description phone image_access info_access
             manage_access media_access s)
      <> Ok (Some x))
  /\ KingdomDAL.update_armymember str fromisoformat
       (Bson.IdOid Example.stark_id) Example.jon_id
       "snow" "snow@north.example" "longclaw" "king" "active" 7%Z 8%Z
       "King in the North" "555" true true true true Example.realm
     = (KingdomDAL.mkdb [Example.westeros] [Example.stark_promoted],
        Raise AttributeError).
Proof.
  split; [|reflexivity].
  intros. unfold KingdomDAL.update_armymember. step_dal.
  destruct (Bson.ObjectId clan_id) as [o|]; [|discriminate].
  destruct (Bson.ObjectId (Bson.IdStr member_id)) as [m|]; [|discriminate].
  destruct (Mongo.update_one _ _ _) as [[c' u]|]; [|discriminate].
  cbn [fst snd].
  destruct (0 <? Mongo.modified_count u)%nat; [|discriminate].
  destruct (get_armymember_raises
              (KingdomDAL.mkdb (KingdomDAL.kingdom_collection s) c')
              clan_id member_id) as [e E].
  rewrite E. discriminate.
Qed.

(** ** Member.from_doc *)

Lemma bind_Ok {A B} (r : result A) (k : A -> result B) (b : B) :
  Py.bind r k = Ok b -> exists a, r = Ok a /\ k a = Ok b.
Proof. destruct r as [a|e]; simpl; [eauto | discriminate]. Qed.

Ltac invert_bind H :=
  let a := fresh "a" in
  let E := fresh "E" in
  apply bind_Ok in H; destruct H as (a & E & H); cbv beta zeta in H.

Lemma validated_strings (l : list value) (l' : list string) :
  Py.mapM Pydantic.validate_str l = Ok l' -> map VStr l' = l.
Proof.
  revert l'. induction l as [|v l IH]; simpl; intros l' H.
  - now injection H as <-.
  - invert_bind H. invert_bind H. injection H as <-.
    destruct v; try discriminate. injection E as <-.
    simpl. f_equal. now apply IH.
Qed.

Lemma filter_drops {A} (p : A -> bool) (l : list A) (x : A) :
  In x l -> p x = false -> (length (filter p l) < length l)%nat.
Proof.
  induction l as [|y l IH]; simpl; [contradiction|].
  intros [->|Hin] Hp.
  - rewrite Hp. pose proof (filter_length_le p l). lia.
  - specialize (IH Hin Hp). destruct (p y); simpl; lia.
Qed.

Lemma validate_strings_total (l : list value) :
  (forall v, In v l -> exists s, v = VStr s) ->
  exists l', Py.mapM Pydantic.validate_str l = Ok l'.
Proof.
  induction l as [|v l IH]; intros H; [now exists []|].
  destruct (H v (or_introl eq_refl)) as [x ->].
  destruct IH as [l' E]; [intros w Hw; apply H; now right|].
  exists (x :: l'). simpl. now rewrite E.
Qed.

(** [Member.from_doc] returns a Member on a document that has an
    identifier and a string nickname, whose text fields are strings or
    missing, whose [memberOf] is a list with strings for truthy entries,
    and whose two dates are strings in ISO format. *)
Lemma Member_from_doc_returns
    (str : value -> string) (fromisoformat : string -> option datetime)
    (d : document) (i : value) (n : string) (stored : list value)
    (r1 r2 : string) (t1 t2 : datetime) :
  Py.lookup d "_id" = Some i ->
  Py.lookup d "nickname" = Some (VStr n) ->
  (forall k,
      In k ["email"; "password"; "rank"; "status"; "description"; "phone"] ->
      exists x, Py.get d k (VStr "") = VStr x) ->
  Py.get d "memberOf" (VList []) = VList stored ->
  (forall v, In v stored -> Py.truthy v = true -> exists x, v = VStr x) ->
  Py.get d "registrationDate" (VStr "") = VStr r1 ->
  fromisoformat r1 = Some t1 ->
  Py.get d "lastLogin" (VStr "") = VStr r2 ->
  fromisoformat r2 = Some t2 ->
  exists m,
    Member.from_doc str fromisoformat (VDict d) = Ok m
    /\ Member.nickname m = n
    /\ Member.registration_date m = t1
    /\ Member.last_login m = t2.
Proof.
  intros Hi Hn Ht Hm Hs Hr1 Hf1 Hr2 Hf2.
  destruct (validate_strings_total (filter Py.truthy stored)) as [mo E].
  { intros v Hv. apply filter_In in Hv as [Hin Htr]. now apply Hs. }
  destruct (Ht "email") as [x1 E1]; [simpl; tauto|].
  destruct (Ht "password") as [x2 E2]; [simpl; tauto|].
  destruct (Ht "rank") as [x3 E3]; [simpl; tauto|].
  destruct (Ht "status") as [x4 E4]; [simpl; tauto|].
  destruct (Ht "description") as [x5 E5]; [simpl; tauto|].
  destruct (Ht "phone") as [x6 E6]; [simpl; tauto|].
  unfold Member.from_doc, Py.getitem.
  cbn [Py.as_dict Py.bind]. rewrite Hi, Hn. cbn [Py.bind].
  rewrite Hm, Hr1, Hr2, E1, E2, E3, E4, E5, E6.
  cbn [Py.iter Py.bind Member.parse_date Pydantic.validate_str].
  rewrite Hf1, Hf2. cbn [Py.bind]. rewrite E. cbn [Py.bind].
  eexists. split; [reflexivity|]. now repeat split.
Qed.

(** C9.  Whenever [Member.from_doc] produces a Member from a document
    whose [memberOf] is a list, the member's [member_of] is that list
    without its falsy entries (the empty string, None, ...): none of them
    is presented, the order of the others is kept, and the presented list
    is strictly shorter than the stored one as soon as the stored list
    holds a falsy entry. *)
Theorem Member_from_doc_drops_falsy
    (str : value -> string) (fromisoformat : string -> option datetime)
    (d : document) (stored : list value) (m : Member.t) :
  Py.lookup d "memberOf" = Some (VList stored) ->
  Member.from_doc str fromisoformat (VDict d) = Ok m ->
  map VStr (Member.member_of m) = filter Py.truthy stored
  /\ (forall v, In v stored -> Py.truthy v = false ->
                ~ In v (map VStr (Member.member_of m)))
  /\ (length (Member.member_of m) <= length stored)%nat
  /\ ((exists v, In v stored /\ Py.truthy v = false) ->
      (length (Member.member_of m) < length stored)%nat).
Proof.
  intros Hl H.
  unfold Member.from_doc in H. cbn [Py.as_dict Py.bind] in H.
  repeat invert_bind H. injection H as <-.
  cbn [Member.member_of].
  match goal with
  | E : Py.iter _ = Ok ?a |- _ =>
      unfold Py.get in E; rewrite Hl in E; injection E as <-
  end.
  match goal with
  | E : Py.mapM _ _ = Ok ?a |- _ =>
      pose proof (validated_strings _ _ E) as V;
      assert (Hlen : length a = length (filter Py.truthy stored))
        by (rewrite <- V; now rewrite length_map)
  end.
  split; [exact V|]. split; [|split].
  - intros v Hin Hf Hin'. rewrite V in Hin'.
    apply filter_In in Hin' as [_ Ht]. congruence.
  - rewrite Hlen. apply filter_length_le.
  - intros (v & Hin & Hf). rewrite Hlen. exact (filter_drops _ _ v Hin Hf).
Qed.

Lemma Member_from_doc_drops_falsy_witness :
  Py.lookup Example.arya "memberOf"
  = Some (VList [VStr ""; VStr Example.stark_id; VNone])
  /\ (exists m,
        Member.from_doc Example.str Example.fromisoformat
          (VDict Example.arya) = Ok m
        /\ Member.member_of m = [Example.stark_id]
        /\ map VStr (Member.member_of m)
           = filter Py.truthy [VStr ""; VStr Example.stark_id; VNone]
        /\ (length (Member.member_of m)
            < length [VStr ""; VStr Example.stark_id; VNone])%nat).
Proof.
  split; [reflexivity|].
  eexists. split; [reflexivity|]. split; [reflexivity|].
  destruct (Member_from_doc_drops_falsy Example.str Example.fromisoformat
              Example.arya [VStr ""; VStr Example.stark_id; VNone] _
              eq_refl eq_refl) as (V & _ & _ & S).
  split; [exact V|].
  apply S. exists (VStr ""). split; [now left | reflexivity].
Defined.

(** * Further properties of the data-access layer *)

(** ** The first document that a query selects *)

Lemma existsb_none {A} (q : A -> bool) (l : list A) :
  existsb q l = false -> forall x, In x l -> q x = false.
Proof.
  induction l as [|y l IH]; simpl; intros H x; [contradiction|].
  apply orb_false_iff in H as [Hy Hl].
  intros [<-|Hx]; [exact Hy | now apply IH].
Qed.

Lemma find_one_split q (c : Mongo.collection) (d : document) :
  Mongo.find_one q c = Some d ->
  exists pre post,
    c = pre ++ d :: post
    /\ (forall x, In x pre -> q x = false)
    /\ q d = true.
Proof.
  unfold Mongo.find_one.
  induction c as [|x c IH]; simpl; [discriminate|].
  destruct (q x) eqn:Q.
  - intros [= ->]. exists [], c. repeat split; [intros y []|exact Q].
  - intros H. destruct (IH H) as (pre & post & -> & Hpre & Hd).
    exists (x :: pre), post. repeat split; [|exact Hd].
    intros y [<-|Hy]; [exact Q | now apply Hpre].
Qed.

Lemma find_one_at q (pre post : Mongo.collection) (d : document) :
  (forall x, In x pre -> q x = false) ->
  q d = true ->
  Mongo.find_one q (pre ++ d :: post) = Some d.
Proof.
  unfold Mongo.find_one.
  induction pre as [|x pre IH]; simpl; intros Hpre Hd.
  - now rewrite Hd.
  - rewrite (Hpre x (or_introl eq_refl)). apply IH; [|exact Hd].
    intros y Hy. apply Hpre. now right.
Qed.

Lemma delete_one_at q (pre post : Mongo.collection) (d : document) :
  (forall x, In x pre -> q x = false) ->
  q d = true ->
  Mongo.delete_one q (pre ++ d :: post) = (pre ++ post, 1%nat).
Proof.
  induction pre as [|x pre IH]; simpl; intros Hpre Hd.
  - now rewrite Hd.
  - rewrite (Hpre x (or_introl eq_refl)). rewrite IH; [reflexivity| |exact Hd].
    intros y Hy. apply Hpre. now right.
Qed.

Lemma delete_one_none q (c : Mongo.collection) :
  (forall x, In x c -> q x = false) ->
  Mongo.delete_one q c = (c, 0%nat).
Proof.
  induction c as [|x c IH]; simpl; intros H; [reflexivity|].
  rewrite (H x (or_introl eq_refl)). rewrite IH; [reflexivity|].
  intros y Hy. apply H. now right.
Qed.

Lemma update_one_at q u (pre post : Mongo.collection) (d d' : document) :
  (forall x, In x pre -> q x = false) ->
  q d = true ->
  u d = Ok d' ->
  Mongo.update_one q u (pre ++ d :: post)
  = Ok (pre ++ d' :: post,
        Mongo.mkUpdateResult 1 (if Py.dict_eqb d d' then 0 else 1)).
Proof.
  induction pre as [|x pre IH]; simpl; intros Hpre Hd U.
  - now rewrite Hd, U.
  - rewrite (Hpre x (or_introl eq_refl)). rewrite IH; [reflexivity| | |];
      try assumption.
    intros y Hy. apply Hpre. now right.
Qed.

Lemma find_one_and_update_at q u (pre post : Mongo.collection)
    (d d' : document) :
  (forall x, In x pre -> q x = false) ->
  q d = true ->
  u d = Ok d' ->
  Mongo.find_one_and_update q u (pre ++ d :: post)
  = Ok (pre ++ d' :: post, Some d').
Proof.
  induction pre as [|x pre IH]; simpl; intros Hpre Hd U.
  - now rewrite Hd, U.
  - rewrite (Hpre x (or_introl eq_refl)). rewrite IH; [reflexivity| | |];
      try assumption.
    intros y Hy. apply Hpre. now right.
Qed.

Lemma find_one_and_update_none q u (c : Mongo.collection) :
  Mongo.find_one q c = None ->
  Mongo.find_one_and_update q u c = Ok (c, None).
Proof.
  unfold Mongo.find_one.
  induction c as [|x c IH]; simpl; [reflexivity|].
  destruct (q x); [discriminate|].
  intros H. now rewrite (IH H).
Qed.

Lemma find_one_none q (c : Mongo.collection) :
  Mongo.find_one q c = None -> forall x, In x c -> q x = false.
Proof.
  unfold Mongo.find_one. intros H x Hx.
  destruct (q x) eqn:Q; [|reflexivity].
  now rewrite (find_none _ _ H x Hx) in Q.
Qed.

(** ** Creating and deleting *)

Lemma create_kingdom_fresh (s : KingdomDAL.db) (new_id : oid) (name : string) :
  existsb (Mongo.has_id new_id) (KingdomDAL.kingdom_collection s) = false ->
  KingdomDAL.create_kingdom new_id name s
  = (KingdomDAL.mkdb
       (KingdomDAL.kingdom_collection s
        ++ [[("_id", VOid new_id); ("name", VStr name)]])
       (KingdomDAL.clan_collection s),
     Ok new_id).
Proof.
  intros H. unfold KingdomDAL.create_kingdom, Mongo.insert_one. step_dal.
  now rewrite H.
Qed.

Lemma has_id_own (o : oid) (rest : document) :
  Mongo.has_id o (("_id", VOid o) :: rest) = true.
Proof. unfold Mongo.has_id. simpl. apply String.eqb_refl. Qed.

(** X1.  A kingdom that was just created, under an identifier that no
    Kingdom document had, is deleted by [delete_kingdom] on the identifier
    string that [create_kingdom] returned: the deletion returns true and the
    database is back to what it was before the creation. *)
Theorem create_then_delete_kingdom
    (s : KingdomDAL.db) (new_id : oid) (name : string) :
  Bson.canonical new_id = true ->
  existsb (Mongo.has_id new_id) (KingdomDAL.kingdom_collection s) = false ->
  snd (KingdomDAL.create_kingdom new_id name s) = Ok new_id
  /\ KingdomDAL.delete_kingdom (Bson.IdStr new_id)
       (fst (KingdomDAL.create_kingdom new_id name s))
     = (s, Ok true).
Proof.
  intros Hc Hf. rewrite (create_kingdom_fresh s new_id name Hf).
  split; [reflexivity|]. cbn [fst].
  unfold KingdomDAL.delete_kingdom. step_dal.
  rewrite (ObjectId_of_str new_id Hc).
  rewrite (delete_one_at _ _ [] _ (existsb_none _ _ Hf) (has_id_own _ _)).
  step_dal. now rewrite app_nil_r, db_eta.
Qed.

Lemma create_then_delete_kingdom_witness :
  Bson.canonical Example.tully_id = true
  /\ existsb (Mongo.has_id Example.tully_id)
       (KingdomDAL.kingdom_collection Example.realm) = false
  /\ snd (KingdomDAL.create_kingdom Example.tully_id "Riverlands"
            Example.realm) = Ok Example.tully_id
  /\ KingdomDAL.delete_kingdom (Bson.IdStr Example.tully_id)
       (fst (KingdomDAL.create_kingdom Example.tully_id "Riverlands"
               Example.realm))
     = (Example.realm, Ok true).
Proof.
  split; [reflexivity|]. split; [reflexivity|].
  apply (create_then_delete_kingdom Example.realm Example.tully_id
           "Riverlands"); reflexivity.
Defined.

(** X2.  A kingdom that was just created, and to which no Clan document
    refers, is returned by [get_kingdom] as its document with an empty
    [clans] list; the read changes nothing. *)
Theorem create_then_get_kingdom
    (str : value -> string) (fromisoformat : string -> option datetime)
    (s : KingdomDAL.db) (new_id : oid) (name : string) :
  Bson.canonical new_id = true ->
  existsb (Mongo.has_id new_id) (KingdomDAL.kingdom_collection s) = false ->
  Mongo.find (Mongo.field_is "kingdomId" new_id)
    (KingdomDAL.clan_collection s) = [] ->
  let s1 := fst (KingdomDAL.create_kingdom new_id name s) in
  KingdomDAL.get_kingdom str fromisoformat (Bson.IdStr new_id) s1
  = (s1, Ok (Some [ ("_id", VOid new_id); ("name", VStr name);
                    ("clans", VList []) ])).
Proof.
  intros Hc Hf Hn s1. subst s1.
  rewrite (create_kingdom_fresh s new_id name Hf). cbn [fst].
  unfold KingdomDAL.get_kingdom. step_dal.
  rewrite (ObjectId_of_str new_id Hc).
  rewrite (find_one_app_fresh _ _ _ Hf (has_id_own _ _)).
  cbn [KingdomDAL.found Py.truthy Py.getitem Py.lookup String.eqb
       Ascii.eqb Bool.eqb KingdomDAL.ident_of].
  rewrite (list_clans_none str fromisoformat new_id
             (KingdomDAL.mkdb
                (KingdomDAL.kingdom_collection s
                 ++ [[("_id", VOid new_id); ("name", VStr name)]])
                (KingdomDAL.clan_collection s)) Hn).
  reflexivity.
Qed.

Lemma create_then_get_kingdom_witness :
  Bson.canonical Example.tully_id = true
  /\ existsb (Mongo.has_id Example.tully_id)
       (KingdomDAL.kingdom_collection Example.realm) = false
  /\ Mongo.find (Mongo.field_is "kingdomId" Example.tully_id)
       (KingdomDAL.clan_collection Example.realm) = []
  /\ KingdomDAL.get_kingdom Example.str Example.fromisoformat
       (Bson.IdStr Example.tully_id)
       (fst (KingdomDAL.create_kingdom Example.tully_id "Riverlands"
               Example.realm))
     = (fst (KingdomDAL.create_kingdom Example.tully_id "Riverlands"
               Example.realm),
        Ok (Some [ ("_id", VOid Example.tully_id);
                   ("name", VStr "Riverlands"); ("clans", VList []) ])).
Proof.
  repeat (split; [reflexivity|]).
  apply (create_then_get_kingdom Example.str Example.fromisoformat
           Example.realm Example.tully_id "Riverlands"); reflexivity.
Defined.

(** ** Reads *)

Lemma get_clan_reads str fromisoformat (id : Bson.ident) (s : KingdomDAL.db) :
  fst (KingdomDAL.get_clan str fromisoformat id s) = s.
Proof.
  unfold KingdomDAL.get_clan. step_dal.
  destruct (Bson.ObjectId id); [|reflexivity].
  destruct (KingdomDAL.found _); [|reflexivity].
  now destruct (KingdomDAL.hydrate _ _ _).
Qed.

Lemma list_clans_by_oid str fromisoformat (id : Bson.ident) (o : oid)
    (s : KingdomDAL.db) :
  Bson.ObjectId id = Ok o ->
  KingdomDAL.list_clans str fromisoformat id s
  = KingdomDAL.list_clans str fromisoformat (Bson.IdOid o) s.
Proof.
  intros H. unfold KingdomDAL.list_clans. step_dal.
  now rewrite H.
Qed.

Lemma list_clans_outcome str fromisoformat (id : Bson.ident)
    (s : KingdomDAL.db) :
  fst (KingdomDAL.list_clans str fromisoformat id s) = s
  /\ (forall l,
        snd (KingdomDAL.list_clans str fromisoformat id s) = Ok l -> l = []).
Proof.
  destruct (Bson.ObjectId id) as [o|e] eqn:Hid.
  - rewrite (list_clans_by_oid str fromisoformat id o s Hid).
    destruct (Mongo.find (Mongo.field_is "kingdomId" o)
                (KingdomDAL.clan_collection s)) as [|c rest] eqn:F.
    + rewrite (list_clans_none str fromisoformat o s F). cbn [fst snd].
      split; [reflexivity|]. now intros l [= <-].
    + destruct (list_clans_some str fromisoformat o s c rest F)
        as (e & _ & E).
      rewrite E. cbn [fst snd]. split; [reflexivity|].
      intros l H. discriminate H.
  - unfold KingdomDAL.list_clans. step_dal. rewrite Hid. cbn [fst snd].
    split; [reflexivity|]. intros l H. discriminate H.
Qed.

(** X3.  [list_clans] never writes and never returns a clan: its result is
    the empty list when no Clan document refers to the kingdom, and an
    exception as soon as one does. *)
Theorem list_clans_never_returns_a_clan
    (str : value -> string) (fromisoformat : string -> option datetime)
    (id : Bson.ident) (s : KingdomDAL.db) :
  fst (KingdomDAL.list_clans str fromisoformat id s) = s
  /\ (forall l,
        snd (KingdomDAL.list_clans str fromisoformat id s) = Ok l -> l = [])
  /\ (forall o,
        Bson.ObjectId id = Ok o ->
        (snd (KingdomDAL.list_clans str fromisoformat id s) = Ok []
         <-> Mongo.find (Mongo.field_is "kingdomId" o)
               (KingdomDAL.clan_collection s) = [])).
Proof.
  destruct (Bson.ObjectId id) as [o|e] eqn:Hid.
  - rewrite (list_clans_by_oid str fromisoformat id o s Hid).
    destruct (Mongo.find (Mongo.field_is "kingdomId" o)
                (KingdomDAL.clan_collection s)) as [|c rest] eqn:F.
    + rewrite (list_clans_none str fromisoformat o s F). cbn [fst snd].
      split; [reflexivity|]. split.
      * now intros l [= <-].
      * intros o' [= <-]. rewrite F. now split.
    + destruct (list_clans_some str fromisoformat o s c rest F)
        as (e & _ & E).
      rewrite E. cbn [fst snd]. split; [reflexivity|]. split.
      * intros l H. discriminate H.
      * intros o' [= <-]. rewrite F. split; intros H; discriminate H.
  - unfold KingdomDAL.list_clans. step_dal. rewrite Hid. cbn [fst snd].
    split; [reflexivity|]. split.
    + intros l H. discriminate H.
    + intros o H. discriminate H.
Qed.

(** X4.  [get_clan] never writes and never returns a clan.  For a
    well-formed identifier it returns the absent result, without raising,
    exactly when no Clan document has the identifier, and raises when one
    has. *)
Theorem get_clan_absent_or_raises
    (str : value -> string) (fromisoformat : string -> option datetime)
    (id : Bson.ident) (s : KingdomDAL.db) :
  fst (KingdomDAL.get_clan str fromisoformat id s) = s
  /\ (forall r,
        snd (KingdomDAL.get_clan str fromisoformat id s) = Ok r -> r = None)
  /\ (forall o,
        Bson.ObjectId id = Ok o ->
        (snd (KingdomDAL.get_clan str fromisoformat id s) = Ok None
         <-> Mongo.find_one (Mongo.has_id o) (KingdomDAL.clan_collection s)
             = None)).
Proof.
  split; [apply get_clan_reads|].
  destruct (Bson.ObjectId id) as [o|e] eqn:Hid.
  - destruct (Mongo.find_one (Mongo.has_id o) (KingdomDAL.clan_collection s))
      as [d|] eqn:F.
    + destruct (get_clan_found_raises str fromisoformat s id o d Hid F)
        as (e & _ & E).
      rewrite E. cbn [snd]. split.
      * intros r H. discriminate H.
      * intros o' [= <-]. rewrite F. split; intros H; discriminate H.
    + assert (E : KingdomDAL.get_clan str fromisoformat id s = (s, Ok None)).
      { unfold KingdomDAL.get_clan. step_dal. now rewrite Hid, F. }
      rewrite E. cbn [snd]. split.
      * now intros r [= <-].
      * intros o' [= <-]. rewrite F. now split.
  - assert (E : KingdomDAL.get_clan str fromisoformat id s = (s, Raise e)).
    { unfold KingdomDAL.get_clan. step_dal. now rewrite Hid. }
    rewrite E. cbn [snd]. split.
    + intros r H. discriminate H.
    + intros o H. discriminate H.
Qed.

Lemma list_kingdoms_reads str fromisoformat (s : KingdomDAL.db) :
  fst (KingdomDAL.list_kingdoms str fromisoformat s) = s.
Proof.
  destruct s as [[|k rest] cl]; [reflexivity|].
  destruct (KingdomSummary_from_doc_raises str
              (VDict (Mongo.project_name k))) as [e He].
  unfold KingdomDAL.list_kingdoms. step_dal.
  cbn [Mongo.find filter map KingdomDAL.for_each]. step_dal.
  now rewrite He.
Qed.

Lemma get_kingdom_reads str fromisoformat (id : Bson.ident)
    (s : KingdomDAL.db) :
  fst (KingdomDAL.get_kingdom str fromisoformat id s) = s.
Proof.
  unfold KingdomDAL.get_kingdom. step_dal.
  destruct (Bson.ObjectId id) as [o|]; [|reflexivity].
  destruct (KingdomDAL.found _); [|reflexivity].
  destruct (Py.getitem _ _) as [i|]; [|reflexivity].
  destruct (KingdomDAL.ident_of i) as [kid|]; [|reflexivity].
  pose proof (list_clans_outcome str fromisoformat kid s)
    as [Hs Hl].
  destruct (KingdomDAL.list_clans str fromisoformat kid s) as [s' [l|e]];
    cbn [fst snd] in *; subst s'; [|reflexivity].
  rewrite (Hl l eq_refl). reflexivity.
Qed.

Lemma get_armymember_reads (clan_id : Bson.ident) (member_id : string)
    (s : KingdomDAL.db) :
  fst (KingdomDAL.get_armymember clan_id member_id s) = s.
Proof.
  destruct (get_armymember_raises s clan_id member_id) as [e E].
  now rewrite E.
Qed.

(** X5.  The five reading methods, [list_kingdoms], [get_kingdom],
    [get_clan], [list_clans] and [get_armymember], leave the database as
    they found it, whatever they return or raise. *)
Theorem reads_never_write
    (str : value -> string) (fromisoformat : string -> option datetime)
    (s : KingdomDAL.db) (id : Bson.ident) (member_id : string) :
  fst (KingdomDAL.list_kingdoms str fromisoformat s) = s
  /\ fst (KingdomDAL.get_kingdom str fromisoformat id s) = s
  /\ fst (KingdomDAL.get_clan str fromisoformat id s) = s
  /\ fst (KingdomDAL.list_clans str fromisoformat id s) = s
  /\ fst (KingdomDAL.get_armymember id member_id s) = s.
Proof.
  repeat split.
  - apply list_kingdoms_reads.
  - apply get_kingdom_reads.
  - apply get_clan_reads.
  - apply list_clans_outcome.
  - apply get_armymember_reads.
Qed.

(** ** Malformed identifiers *)






(** ** Creating and deleting a clan *)

Lemma create_clan_store str fromisoformat (s : KingdomDAL.db) (new_id : oid)
    (kingdom_id : Bson.ident) (k : oid) (clan_name description : string) :
  Bson.ObjectId kingdom_id = Ok k ->
  existsb (Mongo.has_id new_id) (KingdomDAL.clan_collection s) = false ->
  fst (KingdomDAL.create_clan str fromisoformat new_id kingdom_id clan_name
         description s)
  = KingdomDAL.mkdb (KingdomDAL.kingdom_collection s)
      (KingdomDAL.clan_collection s
       ++ [[ ("_id", VOid new_id);
             ("kingdomId", VOid k);
             ("clanName", VStr clan_name);
             ("description", VStr description);
             ("armyMembers", VList []) ]]).
Proof.
  intros Hk Hf.
  unfold KingdomDAL.create_clan. step_dal. rewrite Hk.
  unfold Mongo.insert_one. rewrite Hf.
  match goal with
  | |- context [KingdomDAL.get_clan ?a ?b ?c ?d] =>
      pose proof (get_clan_reads a b c d) as R;
      destruct (KingdomDAL.get_clan a b c d) as [s' [r|e]]
  end; cbn [fst] in R; subst s'; [|reflexivity].
  now destruct (Clan.from_doc str _).
Qed.

(** X8.  A clan that was just created, under an identifier that no Clan
    document had, is deleted by [delete_clan] on that identifier: the
    deletion returns true and the database is back to what it was before
    the creation. *)
Theorem create_then_delete_clan
    (str : value -> string) (fromisoformat : string -> option datetime)
    (s : KingdomDAL.db) (new_id : oid) (kingdom_id : Bson.ident) (k : oid)
    (clan_name description : string) :
  Bson.ObjectId kingdom_id = Ok k ->
  Bson.canonical new_id = true ->
  existsb (Mongo.has_id new_id) (KingdomDAL.clan_collection s) = false ->
  KingdomDAL.delete_clan (Bson.IdStr new_id)
    (fst (KingdomDAL.create_clan str fromisoformat new_id kingdom_id
            clan_name description s))
  = (s, Ok true).
Proof.
  intros Hk Hc Hf.
  rewrite (create_clan_store str fromisoformat s new_id kingdom_id k
             clan_name description Hk Hf).
  unfold KingdomDAL.delete_clan. step_dal.
  rewrite (ObjectId_of_str new_id Hc).
  rewrite (delete_one_at _ _ [] _ (existsb_none _ _ Hf) (has_id_own _ _)).
  step_dal. now rewrite app_nil_r, db_eta.
Qed.

Lemma create_then_delete_clan_witness :
  Bson.ObjectId (Bson.IdOid Example.westeros_id) = Ok Example.westeros_id
  /\ Bson.canonical Example.tully_id = true
  /\ existsb (Mongo.has_id Example.tully_id)
       (KingdomDAL.clan_collection Example.realm) = false
  /\ KingdomDAL.delete_clan (Bson.IdStr Example.tully_id)
       (fst (KingdomDAL.create_clan Example.str Example.fromisoformat
               Example.tully_id (Bson.IdOid Example.westeros_id) "Tully" ""
               Example.realm))
     = (Example.realm, Ok true).
Proof.
  repeat (split; [reflexivity|]).
  apply (create_then_delete_clan Example.str Example.fromisoformat
           Example.realm Example.tully_id (Bson.IdOid Example.westeros_id)
           Example.westeros_id "Tully" ""); reflexivity.
Defined.

Lemma find_one_without q (pre post : Mongo.collection) (d : document) :
  q d = false ->
  Mongo.find_one q (pre ++ d :: post) = Mongo.find_one q (pre ++ post).
Proof.
  unfold Mongo.find_one. intros Hd.
  induction pre as [|x pre IH]; simpl; [now rewrite Hd|].
  now rewrite IH.
Qed.

Lemma find_one_replaced q (pre post : Mongo.collection) (d d' : document) :
  q d = false -> q d' = false ->
  Mongo.find_one q (pre ++ d' :: post) = Mongo.find_one q (pre ++ d :: post).
Proof.
  intros H H'. now rewrite !find_one_without.
Qed.

Lemma has_id_other (o o' : oid) (d : document) :
  Mongo.has_id o d = true -> o' <> o -> Mongo.has_id o' d = false.
Proof.
  intros H N. apply has_id_lookup in H. unfold Mongo.has_id. rewrite H.
  simpl. apply String.eqb_neq. congruence.
Qed.

Lemma only_match_split q (pre post : Mongo.collection) (d : document) :
  (forall x, In x pre -> q x = false) ->
  q d = true ->
  length (Mongo.find q (pre ++ d :: post)) = 1%nat ->
  forall x, In x post -> q x = false.
Proof.
  unfold Mongo.find. intros Hpre Hd L x Hx.
  rewrite filter_app in L. simpl in L. rewrite Hd in L.
  rewrite length_app in L. simpl in L.
  assert (Hp : length (filter q post) = 0%nat) by lia.
  destruct (q x) eqn:Q; [|reflexivity].
  assert (In x (filter q post)) by (apply filter_In; now split).
  destruct (filter q post); [contradiction | discriminate].
Qed.

Lemma find_one_no_match q (c : Mongo.collection) :
  (forall x, In x c -> q x = false) -> Mongo.find_one q c = None.
Proof.
  unfold Mongo.find_one.
  induction c as [|x c IH]; simpl; intros H; [reflexivity|].
  rewrite (H x (or_introl eq_refl)). apply IH.
  intros y Hy. apply H. now right.
Qed.

(** X9.  [delete_clan] on the identifier of the one Clan document that has
    it returns true and touches no kingdom; afterwards the clan is gone
    ([get_clan] returns the absent result), a second [delete_clan] returns
    false and changes nothing, and every clan with another identifier is
    found as before. *)
Theorem delete_clan_removes
    (str : value -> string) (fromisoformat : string -> option datetime)
    (s : KingdomDAL.db) (id : Bson.ident) (o : oid) (d : document) :
  Bson.ObjectId id = Ok o ->
  Mongo.find_one (Mongo.has_id o) (KingdomDAL.clan_collection s) = Some d ->
  length (Mongo.find (Mongo.has_id o) (KingdomDAL.clan_collection s))
  = 1%nat ->
  let s' := fst (KingdomDAL.delete_clan id s) in
  snd (KingdomDAL.delete_clan id s) = Ok true
  /\ KingdomDAL.kingdom_collection s' = KingdomDAL.kingdom_collection s
  /\ S (length (KingdomDAL.clan_collection s'))
     = length (KingdomDAL.clan_collection s)
  /\ KingdomDAL.get_clan str fromisoformat id s' = (s', Ok None)
  /\ KingdomDAL.delete_clan id s' = (s', Ok false)
  /\ (forall o', o' <> o ->
        Mongo.find_one (Mongo.has_id o') (KingdomDAL.clan_collection s')
        = Mongo.find_one (Mongo.has_id o') (KingdomDAL.clan_collection s)).
Proof.
  intros Hid F L s'.
  destruct (find_one_split _ _ _ F) as (pre & post & Hc & Hpre & Hd).
  rewrite Hc in L. pose proof (only_match_split _ _ _ _ Hpre Hd L) as Hpost.
  assert (Hnone : forall x, In x (pre ++ post) -> Mongo.has_id o x = false).
  { intros x Hx. apply in_app_or in Hx as [Hx|Hx]; auto. }
  assert (E : KingdomDAL.delete_clan id s
              = (KingdomDAL.mkdb (KingdomDAL.kingdom_collection s)
                   (pre ++ post), Ok true)).
  { unfold KingdomDAL.delete_clan. step_dal. rewrite Hid, Hc.
    now rewrite (delete_one_at _ pre post d Hpre Hd). }
  subst s'. rewrite E. cbn [fst snd KingdomDAL.kingdom_collection
                             KingdomDAL.clan_collection].
  split; [reflexivity|]. split; [reflexivity|]. split.
  { rewrite Hc, !length_app. simpl. lia. }
  split; [|split].
  - unfold KingdomDAL.get_clan. step_dal. rewrite Hid.
    now rewrite (find_one_no_match _ _ Hnone).
  - unfold KingdomDAL.delete_clan. step_dal. rewrite Hid.
    now rewrite (delete_one_none _ _ Hnone).
  - intros o' N. rewrite Hc. symmetry. apply find_one_without.
    exact (has_id_other o o' d Hd N).
Qed.

Lemma delete_clan_removes_witness :
  Bson.ObjectId (Bson.IdOid Example.stark_id) = Ok Example.stark_id
  /\ Mongo.find_one (Mongo.has_id Example.stark_id)
       (KingdomDAL.clan_collection Example.realm) = Some Example.stark
  /\ length (Mongo.find (Mongo.has_id Example.stark_id)
               (KingdomDAL.clan_collection Example.realm)) = 1%nat
  /\ KingdomDAL.delete_clan (Bson.IdOid Example.stark_id) Example.realm
     = (KingdomDAL.mkdb [Example.westeros] [], Ok true)
  /\ KingdomDAL.get_clan Example.str Example.fromisoformat
       (Bson.IdOid Example.stark_id) (KingdomDAL.mkdb [Example.westeros] [])
     = (KingdomDAL.mkdb [Example.westeros] [], Ok None).
Proof.
  do 4 (split; [reflexivity|]).
  destruct (delete_clan_removes Example.str Example.fromisoformat
              Example.realm (Bson.IdOid Example.stark_id) Example.stark_id
              Example.stark eq_refl eq_refl eq_refl)
    as (_ & _ & _ & H & _).
  exact H.
Defined.

(** X10.  On an identifier that no Clan document has, the writing methods
    write nothing and create nothing: [remove_armymember] and [delete_clan]
    return false, [update_armymember] returns nothing, and [update_clan]
    returns nothing (or, for an update without any field on a server that
    refuses empty updates, raises OperationFailure). *)
Theorem unknown_clan_is_not_created
    (str : value -> string) (fromisoformat : string -> option datetime)
    (rejects_empty_update : bool)
    (s : KingdomDAL.db) (clan_id : Bson.ident) (member_id : string)
    (o m : oid) (a1 a2 a3 a4 a5 a6 a7 : string) (t1 t2 : datetime)
    (b1 b2 b3 b4 : bool) (name description : option string) :
  Bson.ObjectId clan_id = Ok o ->
  Bson.ObjectId (Bson.IdStr member_id) = Ok m ->
  Mongo.find_one (Mongo.has_id o) (KingdomDAL.clan_collection s) = None ->
  KingdomDAL.remove_armymember clan_id member_id s = (s, Ok false)
  /\ KingdomDAL.delete_clan clan_id s = (s, Ok false)
  /\ KingdomDAL.update_armymember str fromisoformat clan_id member_id
       a1 a2 a3 a4 a5 t1 t2 a6 a7 b1 b2 b3 b4 s
     = (s, Ok None)
  /\ KingdomDAL.update_clan str fromisoformat rejects_empty_update clan_id
       name description s
     = (s,
        match KingdomDAL.update_fields name description with
        | [] => if rejects_empty_update then Raise OperationFailure
                else Ok None
        | _ => Ok None
        end).
Proof.
  intros Hid Hm F.
  split; [|split; [|split]].
  - unfold KingdomDAL.remove_armymember. step_dal. rewrite Hid, Hm.
    rewrite (update_one_no_match _ _ _ F). cbn. now rewrite db_eta.
  - unfold KingdomDAL.delete_clan. step_dal. rewrite Hid.
    rewrite (delete_one_none _ _ (find_one_none _ _ F)). step_dal.
    now rewrite db_eta.
  - unfold KingdomDAL.update_armymember. step_dal. rewrite Hid, Hm.
    rewrite (update_one_no_match _ _ _ F). cbn. now rewrite db_eta.
  - unfold KingdomDAL.update_clan. step_dal. rewrite Hid.
    rewrite (find_one_and_update_none _ _ _ F).
    destruct (KingdomDAL.update_fields name description);
      [destruct rejects_empty_update|]; step_dal;
      try reflexivity; cbn; now rewrite db_eta.
Qed.

Lemma unknown_clan_is_not_created_witness :
  Bson.ObjectId (Bson.IdOid Example.tully_id) = Ok Example.tully_id
  /\ Bson.ObjectId (Bson.IdStr Example.jon_id) = Ok Example.jon_id
  /\ Mongo.find_one (Mongo.has_id Example.tully_id)
       (KingdomDAL.clan_collection Example.realm) = None
  /\ KingdomDAL.remove_armymember (Bson.IdOid Example.tully_id)
       Example.jon_id Example.realm
     = (Example.realm, Ok false)
  /\ KingdomDAL.update_clan Example.str Example.fromisoformat true
       (Bson.IdOid Example.tully_id) (Some "Tully") None Example.realm
     = (Example.realm, Ok None).
Proof.
  do 3 (split; [reflexivity|]).
  destruct (unknown_clan_is_not_created Example.str Example.fromisoformat
              true Example.realm (Bson.IdOid Example.tully_id)
              Example.jon_id Example.tully_id Example.jon_id
              "" "" "" "" "" "" "" 0%Z 0%Z false false false false
              (Some "Tully") None eq_refl eq_refl eq_refl)
    as (H1 & _ & _ & H4).
  split; [exact H1 | exact H4].
Defined.

(** X11.  [create_kingdom] does not look at names: two kingdoms of the same
    name, created under two distinct identifiers that no Kingdom document
    had, are both stored, in the order of their creation, and each call
    returns its identifier. *)
Theorem create_kingdom_twice_same_name
    (s : KingdomDAL.db) (id1 id2 : oid) (name : string) :
  existsb (Mongo.has_id id1) (KingdomDAL.kingdom_collection s) = false ->
  existsb (Mongo.has_id id2) (KingdomDAL.kingdom_collection s) = false ->
  id1 <> id2 ->
  let s1 := fst (KingdomDAL.create_kingdom id1 name s) in
  snd (KingdomDAL.create_kingdom id1 name s) = Ok id1
  /\ KingdomDAL.create_kingdom id2 name s1
     = (KingdomDAL.mkdb
          (KingdomDAL.kingdom_collection s
           ++ [ [("_id", VOid id1); ("name", VStr name)];
                [("_id", VOid id2); ("name", VStr name)] ])
          (KingdomDAL.clan_collection s),
        Ok id2)
  /\ KingdomDAL.create_kingdom id1 name s1 = (s1, Raise DuplicateKeyError).
Proof.
  intros H1 H2 N s1. subst s1.
  rewrite (create_kingdom_fresh s id1 name H1). cbn [fst snd].
  split; [reflexivity|]. split.
  - rewrite create_kingdom_fresh.
    + cbn [KingdomDAL.kingdom_collection KingdomDAL.clan_collection].
      now rewrite <- app_assoc.
    + cbn [KingdomDAL.kingdom_collection]. rewrite existsb_app, H2. simpl.
      rewrite orb_false_r. unfold Mongo.has_id. simpl.
      apply String.eqb_neq. exact N.
  - unfold KingdomDAL.create_kingdom, Mongo.insert_one. step_dal.
    rewrite existsb_app. simpl. rewrite has_id_own.
    now rewrite orb_true_r.
Qed.

Lemma create_kingdom_twice_same_name_witness :
  existsb (Mongo.has_id Example.tully_id)
    (KingdomDAL.kingdom_collection Example.realm) = false
  /\ existsb (Mongo.has_id Example.arya_id)
       (KingdomDAL.kingdom_collection Example.realm) = false
  /\ Example.tully_id <> Example.arya_id
  /\ KingdomDAL.create_kingdom Example.arya_id "Westeros"
       (fst (KingdomDAL.create_kingdom Example.tully_id "Westeros"
               Example.realm))
     = (KingdomDAL.mkdb
          [ Example.westeros;
            [("_id", VOid Example.tully_id); ("name", VStr "Westeros")];
            [("_id", VOid Example.arya_id); ("name", VStr "Westeros")] ]
          [Example.stark],
        Ok Example.arya_id).
Proof.
  split; [reflexivity|]. split; [reflexivity|].
  assert (N : Example.tully_id <> Example.arya_id) by discriminate.
  split; [exact N|].
  destruct (create_kingdom_twice_same_name Example.realm Example.tully_id
              Example.arya_id "Westeros" eq_refl eq_refl N) as (_ & H & _).
  exact H.
Defined.

(** ** Members of a clan *)

Lemma setitem_setitem (d : document) (k : string) (v w : value) :
  Py.setitem (Py.setitem d k v) k w = Py.setitem d k w.
Proof.
  induction d as [|[k' v'] d IH]; simpl.
  - now rewrite String.eqb_refl.
  - destruct (String.eqb k' k) eqn:E; simpl; rewrite E; [reflexivity|].
    now rewrite IH.
Qed.

Lemma has_id_setitem (o : oid) (d : document) (k : string) (v : value) :
  k <> "_id" -> Mongo.has_id o (Py.setitem d k v) = Mongo.has_id o d.
Proof.
  intros N. unfold Mongo.has_id. now rewrite lookup_setitem_other.
Qed.

Lemma filter_filter {A} (p : A -> bool) (l : list A) :
  filter p (filter p l) = filter p l.
Proof.
  apply filter_all. intros x Hx. now apply filter_In in Hx.
Qed.

Lemma remove_armymember_at (pre post : Mongo.collection) (k : Mongo.collection)
    (clan_id : Bson.ident) (member_id : string) (o m : oid) (d : document)
    (l : list value) :
  Bson.ObjectId clan_id = Ok o ->
  Bson.ObjectId (Bson.IdStr member_id) = Ok m ->
  (forall x, In x pre -> Mongo.has_id o x = false) ->
  Mongo.has_id o d = true ->
  Py.lookup d "armyMembers" = Some (VList l) ->
  KingdomDAL.remove_armymember clan_id member_id
    (KingdomDAL.mkdb k (pre ++ d :: post))
  = (KingdomDAL.mkdb k
       (pre
        ++ Py.setitem d "armyMembers"
             (VList (filter (fun e => negb (Mongo.elem_has_id m e)) l))
        :: post),
     Ok (negb (Py.dict_eqb d
                 (Py.setitem d "armyMembers"
                    (VList (filter (fun e => negb (Mongo.elem_has_id m e))
                              l)))))).
Proof.
  intros Hid Hm Hpre Hd L.
  set (d' := Py.setitem d "armyMembers"
               (VList (filter (fun e => negb (Mongo.elem_has_id m e)) l))).
  unfold KingdomDAL.remove_armymember. step_dal. rewrite Hid, Hm.
  assert (U : Mongo.pull "armyMembers" m d = Ok d')
    by (unfold Mongo.pull; now rewrite L).
  rewrite (update_one_at _ _ pre post d d' Hpre Hd U).
  cbn [fst snd Mongo.modified_count].
  now destruct (Py.dict_eqb d d').
Qed.

(** X12.  [remove_armymember] of a member that the clan's array holds
    returns true; the array afterwards is the former array without the
    elements of that identifier, the others in their order; no other field
    of the clan, no other clan and no kingdom changes; and a second call
    returns false and changes nothing. *)
Theorem remove_armymember_present
    (s : KingdomDAL.db) (clan_id : Bson.ident) (member_id : string)
    (o m : oid) (d : document) (l : list value) :
  Bson.ObjectId clan_id = Ok o ->
  Bson.ObjectId (Bson.IdStr member_id) = Ok m ->
  Mongo.find_one (Mongo.has_id o) (KingdomDAL.clan_collection s) = Some d ->
  Py.lookup d "armyMembers" = Some (VList l) ->
  (exists e, In e l /\ Mongo.elem_has_id m e = true) ->
  let s' := fst (KingdomDAL.remove_armymember clan_id member_id s) in
  snd (KingdomDAL.remove_armymember clan_id member_id s) = Ok true
  /\ KingdomDAL.kingdom_collection s' = KingdomDAL.kingdom_collection s
  /\ length (KingdomDAL.clan_collection s')
     = length (KingdomDAL.clan_collection s)
  /\ (forall o', o' <> o ->
        Mongo.find_one (Mongo.has_id o') (KingdomDAL.clan_collection s')
        = Mongo.find_one (Mongo.has_id o') (KingdomDAL.clan_collection s))
  /\ (exists d',
        Mongo.find_one (Mongo.has_id o) (KingdomDAL.clan_collection s')
        = Some d'
        /\ Py.lookup d' "armyMembers"
           = Some (VList (filter (fun e => negb (Mongo.elem_has_id m e)) l))
        /\ (forall k, k <> "armyMembers" -> Py.lookup d' k = Py.lookup d k))
  /\ KingdomDAL.remove_armymember clan_id member_id s' = (s', Ok false).
Proof.
  intros Hid Hm F L (e & He & Hmatch) s'.
  destruct (find_one_split _ _ _ F) as (pre & post & Hc & Hpre & Hd).
  set (l' := filter (fun e => negb (Mongo.elem_has_id m e)) l).
  set (d' := Py.setitem d "armyMembers" (VList l')).
  assert (Hl' : Py.lookup d' "armyMembers" = Some (VList l'))
    by apply lookup_setitem_same.
  assert (Hd' : Mongo.has_id o d' = true)
    by (unfold d'; rewrite has_id_setitem by discriminate; exact Hd).
  assert (Hne : Py.dict_eqb d d' = false).
  { destruct (Py.dict_eqb d d') eqn:E; [|reflexivity].
    apply dict_eqb_eq in E. rewrite <- E in Hl'. rewrite L in Hl'.
    injection Hl' as Hl'.
    assert (length l' < length l)%nat.
    { apply (filter_drops _ l e He). now rewrite Hmatch. }
    rewrite <- Hl' in H. lia. }
  assert (E : KingdomDAL.remove_armymember clan_id member_id s
              = (KingdomDAL.mkdb (KingdomDAL.kingdom_collection s)
                   (pre ++ d' :: post), Ok true)).
  { rewrite <- (db_eta s) at 1. rewrite Hc.
    rewrite (remove_armymember_at pre post _ clan_id member_id o m d l
               Hid Hm Hpre Hd L).
    fold l' d'. now rewrite Hne. }
  subst s'. rewrite E. cbn [fst snd KingdomDAL.kingdom_collection
                             KingdomDAL.clan_collection].
  split; [reflexivity|]. split; [reflexivity|]. split.
  { rewrite Hc, !length_app. reflexivity. }
  split.
  { intros o' N. rewrite Hc. apply find_one_replaced.
    - exact (has_id_other o o' d Hd N).
    - exact (has_id_other o o' d' Hd' N). }
  split.
  - exists d'. split; [exact (find_one_at _ pre post d' Hpre Hd')|].
    split; [exact Hl'|].
    intros k N. unfold d'. apply lookup_setitem_other. congruence.
  - rewrite (remove_armymember_at pre post _ clan_id member_id o m d' l'
               Hid Hm Hpre Hd' Hl').
    unfold l'. rewrite filter_filter. fold l'.
    rewrite (setitem_same d' "armyMembers" (VList l') Hl').
    now rewrite dict_eqb_refl.
Qed.

Lemma remove_armymember_present_witness :
  Bson.ObjectId (Bson.IdOid Example.stark_id) = Ok Example.stark_id
  /\ Bson.ObjectId (Bson.IdStr Example.jon_id) = Ok Example.jon_id
  /\ Mongo.find_one (Mongo.has_id Example.stark_id)
       (KingdomDAL.clan_collection Example.realm) = Some Example.stark
  /\ Py.lookup Example.stark "armyMembers" = Some (VList [VDict Example.jon])
  /\ (exists e, In e [VDict Example.jon]
                /\ Mongo.elem_has_id Example.jon_id e = true)
  /\ snd (KingdomDAL.remove_armymember (Bson.IdOid Example.stark_id)
            Example.jon_id Example.realm) = Ok true.
Proof.
  assert (P : exists e, In e [VDict Example.jon]
                        /\ Mongo.elem_has_id Example.jon_id e = true).
  { exists (VDict Example.jon). split; [now left | reflexivity]. }
  do 4 (split; [reflexivity|]). split; [exact P|].
  destruct (remove_armymember_present Example.realm
              (Bson.IdOid Example.stark_id) Example.jon_id Example.stark_id
              Example.jon_id Example.stark [VDict Example.jon]
              eq_refl eq_refl eq_refl eq_refl P) as (H & _).
  exact H.
Defined.

Lemma add_armymember_at str fromisoformat (pre post k : Mongo.collection)
    (new_id : oid) (now1 now2 : datetime) (clan_id : Bson.ident) (o : oid)
    (nickname email password rank : string) (d : document) (l : list value) :
  Bson.ObjectId clan_id = Ok o ->
  (forall x, In x pre -> Mongo.has_id o x = false) ->
  Mongo.has_id o d = true ->
  Py.lookup d "armyMembers" = Some (VList l) ->
  fst (KingdomDAL.add_armymember str fromisoformat new_id now1 now2 clan_id
         nickname email password rank
         (KingdomDAL.mkdb k (pre ++ d :: post)))
  = KingdomDAL.mkdb k
      (pre
       ++ Py.setitem d "armyMembers"
            (VList (l ++ [VDict (KingdomDAL.new_member new_id now1 now2
                                   clan_id nickname email password rank)]))
       :: post).
Proof.
  intros Hid Hpre Hd L.
  unfold KingdomDAL.add_armymember. step_dal. rewrite Hid.
  assert (U : Mongo.push "armyMembers"
                (VDict (KingdomDAL.new_member new_id now1 now2 clan_id
                          nickname email password rank)) d
              = Ok (Py.setitem d "armyMembers"
                      (VList (l ++ [VDict (KingdomDAL.new_member new_id now1
                                             now2 clan_id nickname email
                                             password rank)]))))
    by (unfold Mongo.push; now rewrite L).
  rewrite (update_one_at _ _ pre post d _ Hpre Hd U).
  cbn [fst snd Mongo.modified_count].
  now destruct (0 <? _)%nat.
Qed.

Lemma new_member_has_id (new_id : oid) (now1 now2 : datetime)
    (clan_id : Bson.ident) (nickname email password rank : string) :
  Mongo.elem_has_id new_id
    (VDict (KingdomDAL.new_member new_id now1 now2 clan_id nickname email
              password rank)) = true.
Proof.
  unfold Mongo.elem_has_id, Mongo.field_is. simpl. apply String.eqb_refl.
Qed.

(** X13.  A member that [add_armymember] just appended to a clan, under an
    identifier that no element of the array had, is removed again by
    [remove_armymember] on that identifier: the removal returns true and
    the database is back to what it was before the member was added. *)
Theorem add_then_remove_armymember
    (str : value -> string) (fromisoformat : string -> option datetime)
    (s : KingdomDAL.db) (new_id : oid) (now1 now2 : datetime)
    (clan_id : Bson.ident) (o : oid)
    (nickname email password rank : string) (d : document) (l : list value) :
  Bson.ObjectId clan_id = Ok o ->
  Bson.canonical new_id = true ->
  Mongo.find_one (Mongo.has_id o) (KingdomDAL.clan_collection s) = Some d ->
  Py.lookup d "armyMembers" = Some (VList l) ->
  (forall e, In e l -> Mongo.elem_has_id new_id e = false) ->
  KingdomDAL.remove_armymember clan_id new_id
    (fst (KingdomDAL.add_armymember str fromisoformat new_id now1 now2
            clan_id nickname email password rank s))
  = (s, Ok true).
Proof.
  intros Hid Hc F L Hfresh.
  destruct (find_one_split _ _ _ F) as (pre & post & Hcl & Hpre & Hd).
  set (member := KingdomDAL.new_member new_id now1 now2 clan_id nickname
                   email password rank).
  set (d1 := Py.setitem d "armyMembers" (VList (l ++ [VDict member]))).
  assert (L1 : Py.lookup d1 "armyMembers" = Some (VList (l ++ [VDict member])))
    by apply lookup_setitem_same.
  assert (Hd1 : Mongo.has_id o d1 = true)
    by (unfold d1; rewrite has_id_setitem by discriminate; exact Hd).
  assert (Hfilter : filter (fun e => negb (Mongo.elem_has_id new_id e))
                      (l ++ [VDict member]) = l).
  { rewrite filter_app. cbn [filter].
    unfold member. rewrite new_member_has_id. cbn [negb].
    rewrite app_nil_r. apply filter_all.
    intros e He. now rewrite (Hfresh e He). }
  assert (Hback : Py.setitem d1 "armyMembers" (VList l) = d).
  { unfold d1. rewrite setitem_setitem. exact (setitem_same _ _ _ L). }
  assert (Hne : Py.dict_eqb d1 d = false).
  { destruct (Py.dict_eqb d1 d) eqn:E; [|reflexivity].
    apply dict_eqb_eq in E. rewrite E, L in L1. injection L1 as L1.
    apply (f_equal (@length value)) in L1. rewrite length_app in L1.
    simpl in L1. lia. }
  rewrite <- (db_eta s) at 1. rewrite Hcl.
  rewrite (add_armymember_at str fromisoformat pre post _ new_id now1 now2
             clan_id o nickname email password rank d l Hid Hpre Hd L).
  fold member. fold d1.
  rewrite (remove_armymember_at pre post _ clan_id new_id o new_id d1
             (l ++ [VDict member]) Hid (ObjectId_of_str new_id Hc) Hpre Hd1
             L1).
  rewrite Hfilter, Hback, Hne. cbn [negb].
  rewrite <- Hcl. now rewrite db_eta.
Qed.

Lemma add_then_remove_armymember_witness :
  Bson.ObjectId (Bson.IdOid Example.stark_id) = Ok Example.stark_id
  /\ Bson.canonical Example.arya_id = true
  /\ Mongo.find_one (Mongo.has_id Example.stark_id)
       (KingdomDAL.clan_collection Example.realm) = Some Example.stark
  /\ Py.lookup Example.stark "armyMembers" = Some (VList [VDict Example.jon])
  /\ (forall e, In e [VDict Example.jon] ->
        Mongo.elem_has_id Example.arya_id e = false)
  /\ KingdomDAL.remove_armymember (Bson.IdOid Example.stark_id)
       Example.arya_id
       (fst (KingdomDAL.add_armymember Example.str Example.fromisoformat
               Example.arya_id 1%Z 2%Z (Bson.IdOid Example.stark_id)
               "arya" "arya@braavos.example" "needle" "recruit"
               Example.realm))
     = (Example.realm, Ok true).
Proof.
  assert (H : forall e, In e [VDict Example.jon] ->
                Mongo.elem_has_id Example.arya_id e = false).
  { intros e [<- | []]. reflexivity. }
  do 4 (split; [reflexivity|]). split; [exact H|].
  apply (add_then_remove_armymember Example.str Example.fromisoformat
           Example.realm Example.arya_id 1%Z 2%Z
           (Bson.IdOid Example.stark_id) Example.stark_id "arya"
           "arya@braavos.example" "needle" "recruit" Example.stark
           [VDict Example.jon]);
    first [reflexivity | exact H].
Defined.

(** ** Setting fields *)

Lemma lookup_set_fields_in (fs : list (string * value)) (d : document)
    (k : string) (v : value) :
  NoDup (map fst fs) ->
  In (k, v) fs ->
  Py.lookup (Mongo.set_fields fs d) k = Some v.
Proof.
  unfold Mongo.set_fields. revert d.
  induction fs as [|[k0 v0] fs IH]; intros d N H; [contradiction|].
  inversion N as [|? ? Hnot Hrest]; subst. simpl.
  destruct H as [[= -> ->]|H].
  - fold (Mongo.set_fields fs (Py.setitem d k v)).
    rewrite lookup_set_fields_other; [apply lookup_setitem_same|].
    intros kv Hkv E. apply Hnot. rewrite <- E. now apply in_map.
  - now apply IH.
Qed.

Lemma set_fields_fixed (fs : list (string * value)) (d : document) :
  (forall k v, In (k, v) fs -> Py.lookup d k = Some v) ->
  Mongo.set_fields fs d = d.
Proof.
  unfold Mongo.set_fields.
  induction fs as [|[k0 v0] fs IH]; intros H; [reflexivity|]. simpl.
  rewrite (setitem_same d k0 v0) by (apply H; now left).
  apply IH. intros k v Hkv. apply H. now right.
Qed.

Lemma set_fields_twice (fs : list (string * value)) (d : document) :
  NoDup (map fst fs) ->
  Mongo.set_fields fs (Mongo.set_fields fs d) = Mongo.set_fields fs d.
Proof.
  intros N. apply set_fields_fixed.
  intros k v H. now apply lookup_set_fields_in.
Qed.

Lemma field_is_set_fields (f : string) (o : oid) (fs : list (string * value))
    (d : document) :
  (forall kv, In kv fs -> fst kv <> f) ->
  Mongo.field_is f o (Mongo.set_fields fs d) = Mongo.field_is f o d.
Proof.
  intros H. unfold Mongo.field_is. now rewrite lookup_set_fields_other.
Qed.

Lemma member_update_keys a1 a2 a3 a4 a5 t1 t2 a6 a7 b1 b2 b3 b4 :
  NoDup (map fst (KingdomDAL.member_update a1 a2 a3 a4 a5 t1 t2 a6 a7
                    b1 b2 b3 b4))
  /\ (forall kv,
        In kv (KingdomDAL.member_update a1 a2 a3 a4 a5 t1 t2 a6 a7
                 b1 b2 b3 b4) ->
        fst kv <> "_id" /\ fst kv <> "memberOf").
Proof.
  split.
  - simpl. repeat (constructor; [simpl; intuition discriminate|]).
    constructor.
  - simpl. intros kv H.
    repeat (destruct H as [<-|H]; [split; discriminate|]).
    contradiction.
Qed.

Lemma update_fields_NoDup (name description : option string) :
  NoDup (map fst (KingdomDAL.update_fields name description)).
Proof.
  unfold KingdomDAL.update_fields.
  destruct name as [n|]; [destruct (Py.truthy (VStr n))|];
    destruct description; simpl;
    repeat (constructor; [simpl; intuition discriminate|]); constructor.
Qed.

(** ** update_armymember in the store *)

(** What the update does to one element of the array. *)
Lemma set_in_elements_array (m : oid) (fs : list (string * value))
    (d : document) (l : list value) :
  Py.lookup d "armyMembers" = Some (VList l) ->
  exists l',
    Mongo.set_in_elements "armyMembers" m fs d
    = Ok (Py.setitem d "armyMembers" (VList l'))
    /\ length l' = length l
    /\ (forall i e,
          nth_error l i = Some e ->
          (Mongo.elem_has_id m e = false -> nth_error l' i = Some e)
          /\ (Mongo.elem_has_id m e = true ->
              exists md,
                e = VDict md
                /\ nth_error l' i = Some (VDict (Mongo.set_fields fs md))))
    /\ (NoDup (map fst fs) ->
        (forall kv, In kv fs -> fst kv <> "_id") ->
        Mongo.set_in_elements "armyMembers" m fs
          (Py.setitem d "armyMembers" (VList l'))
        = Ok (Py.setitem d "armyMembers" (VList l'))).
Proof.
  intros L.
  set (upd := fun e =>
                match e with
                | VDict md =>
                    if Mongo.field_is "_id" m md
                    then VDict (Mongo.set_fields fs md)
                    else e
                | _ => e
                end).
  exists (map upd l).
  split; [unfold Mongo.set_in_elements; now rewrite L|].
  split; [apply length_map|]. split.
  - intros i e Hi. rewrite nth_error_map, Hi. cbn [option_map].
    split.
    + intros H. f_equal. destruct e; try reflexivity.
      simpl in H. unfold upd. now rewrite H.
    + intros H. destruct e; try discriminate H.
      exists d0. split; [reflexivity|]. simpl in H. unfold upd.
      now rewrite H.
  - intros N Hid. unfold Mongo.set_in_elements.
    rewrite lookup_setitem_same, setitem_setitem.
    do 3 f_equal. rewrite map_map. apply map_ext.
    intros e. destruct e; try reflexivity. unfold upd.
    destruct (Mongo.field_is "_id" m d0) eqn:E; [|now rewrite E].
    rewrite (field_is_set_fields "_id" m fs d0 Hid), E.
    now rewrite (set_fields_twice fs d0 N).
Qed.

Lemma update_armymember_at str fromisoformat (pre post k : Mongo.collection)
    (clan_id : Bson.ident) (member_id : string) (o m : oid)
    (d d' : document) a1 a2 a3 a4 a5 t1 t2 a6 a7 b1 b2 b3 b4 :
  Bson.ObjectId clan_id = Ok o ->
  Bson.ObjectId (Bson.IdStr member_id) = Ok m ->
  (forall x, In x pre -> Mongo.has_id o x = false) ->
  Mongo.has_id o d = true ->
  Mongo.set_in_elements "armyMembers" m
    (KingdomDAL.member_update a1 a2 a3 a4 a5 t1 t2 a6 a7 b1 b2 b3 b4) d
  = Ok d' ->
  KingdomDAL.update_armymember str fromisoformat clan_id member_id
    a1 a2 a3 a4 a5 t1 t2 a6 a7 b1 b2 b3 b4
    (KingdomDAL.mkdb k (pre ++ d :: post))
  = (KingdomDAL.mkdb k (pre ++ d' :: post),
     if Py.dict_eqb d d' then Ok None else Raise AttributeError).
Proof.
  intros Hid Hm Hpre Hd U.
  unfold KingdomDAL.update_armymember. step_dal. rewrite Hid, Hm.
  rewrite (update_one_at _ _ pre post d d' Hpre Hd U).
  cbn [fst snd Mongo.modified_count].
  destruct (Py.dict_eqb d d'); cbn [Nat.ltb Nat.leb]; [reflexivity|].
  unfold KingdomDAL.get_armymember. step_dal. now rewrite Hid.
Qed.



(** X15.  [update_armymember] called a second time with the same values
    writes nothing and returns nothing, although the member is there: the
    store reports no modification. *)
Theorem update_armymember_again_returns_nothing
    (str : value -> string) (fromisoformat : string -> option datetime)
    (s : KingdomDAL.db) (clan_id : Bson.ident) (member_id : string)
    (o m : oid) (d : document) (l : list value)
    (nickname email password rank status : string)
    (registration_date last_login : datetime) (description phone : string)
    (image_access info_access manage_access media_access : bool) :
  Bson.ObjectId clan_id = Ok o ->
  Bson.ObjectId (Bson.IdStr member_id) = Ok m ->
  Mongo.find_one (Mongo.has_id o) (KingdomDAL.clan_collection s) = Some d ->
  Py.lookup d "armyMembers" = Some (VList l) ->
  let s' :=
    fst (KingdomDAL.update_armymember str fromisoformat clan_id member_id
           nickname email password rank status registration_date last_login
           description phone image_access info_access manage_access
           media_access s) in
  KingdomDAL.update_armymember str fromisoformat clan_id member_id
    nickname email password rank status registration_date last_login
    description phone image_access info_access manage_access media_access s'
  = (s', Ok None).
Proof.
  intros Hid Hm F L s'.
  destruct (find_one_split _ _ _ F) as (pre & post & Hc & Hpre & Hd).
  destruct (member_update_keys nickname email password rank status
              registration_date last_login description phone image_access
              info_access manage_access media_access) as [N Hkeys].
  destruct (set_in_elements_array m
              (KingdomDAL.member_update nickname email password rank status
                 registration_date last_login description phone image_access
                 info_access manage_access media_access) d l L)
    as (l' & U & _ & _ & Hagain).
  specialize (Hagain N (fun kv Hkv => proj1 (Hkeys kv Hkv))).
  set (d' := Py.setitem d "armyMembers" (VList l')) in *.
  assert (Hd' : Mongo.has_id o d' = true)
    by (unfold d'; rewrite has_id_setitem by discriminate; exact Hd).
  assert (E : s' = KingdomDAL.mkdb (KingdomDAL.kingdom_collection s)
                     (pre ++ d' :: post)).
  { unfold s'. rewrite <- (db_eta s) at 1. rewrite Hc.
    now rewrite (update_armymember_at str fromisoformat pre post _ clan_id
                   member_id o m d d' _ _ _ _ _ _ _ _ _ _ _ _ _ Hid Hm Hpre
                   Hd U). }
  rewrite E.
  rewrite (update_armymember_at str fromisoformat pre post _ clan_id
             member_id o m d' d' _ _ _ _ _ _ _ _ _ _ _ _ _ Hid Hm Hpre Hd'
             Hagain).
  now rewrite dict_eqb_refl.
Qed.

Lemma update_armymember_again_returns_nothing_witness :
  Bson.ObjectId (Bson.IdOid Example.stark_id) = Ok Example.stark_id
  /\ Bson.ObjectId (Bson.IdStr Example.jon_id) = Ok Example.jon_id
  /\ Mongo.find_one (Mongo.has_id Example.stark_id)
       (KingdomDAL.clan_collection Example.realm) = Some Example.stark
  /\ Py.lookup Example.stark "armyMembers" = Some (VList [VDict Example.jon])
  /\ KingdomDAL.update_armymember Example.str Example.fromisoformat
       (Bson.IdOid Example.stark_id) Example.jon_id
       "snow" "snow@north.example" "longclaw" "king" "active"
       7%Z 8%Z "King in the North" "555" true true true true
       (KingdomDAL.mkdb [Example.westeros] [Example.stark_promoted])
     = (KingdomDAL.mkdb [Example.westeros] [Example.stark_promoted], Ok None).
Proof.
  do 4 (split; [reflexivity|]).
  exact (update_armymember_again_returns_nothing Example.str
           Example.fromisoformat Example.realm
           (Bson.IdOid Example.stark_id) Example.jon_id Example.stark_id
           Example.jon_id Example.stark [VDict Example.jon]
           "snow" "snow@north.example" "longclaw" "king" "active"
           7%Z 8%Z "King in the North" "555" true true true true
           eq_refl eq_refl eq_refl eq_refl).
Defined.

(** ** update_clan on an existing clan *)

Lemma update_clan_at str fromisoformat (rejects_empty_update : bool)
    (pre post k : Mongo.collection) (clan_id : Bson.ident) (o : oid)
    (d : document) (name description : option string) :
  Bson.ObjectId clan_id = Ok o ->
  (forall x, In x pre -> Mongo.has_id o x = false) ->
  Mongo.has_id o d = true ->
  exists e,
    KingdomDAL.update_clan str fromisoformat rejects_empty_update clan_id
      name description (KingdomDAL.mkdb k (pre ++ d :: post))
    = (KingdomDAL.mkdb k
         (pre
          ++ Mongo.set_fields (KingdomDAL.update_fields name description) d
          :: post),
       Raise e).
Proof.
  intros Hid Hpre Hd.
  assert (Hd' : Mongo.has_id o
                  (Mongo.set_fields
                     (KingdomDAL.update_fields name description) d) = true).
  { rewrite has_id_set_fields; [exact Hd|].
    intros kv Hkv. apply update_fields_keys in Hkv as [-> | ->]; discriminate. }
  destruct (hydrate_raises str fromisoformat
              (Mongo.set_fields (KingdomDAL.update_fields name description)
                 d)) as [e He].
  unfold KingdomDAL.update_clan.
  remember (KingdomDAL.update_fields name description) as fs eqn:Ef.
  destruct fs as [|f rest].
  - destruct rejects_empty_update.
    + exists OperationFailure. step_dal. now rewrite Hid.
    + exists e. step_dal. rewrite Hid.
      rewrite (find_one_and_update_at (Mongo.has_id o)
                 (fun d0 => Ok (Mongo.set_fields [] d0)) pre post d
                 (Mongo.set_fields [] d) Hpre Hd eq_refl).
      cbn [fst snd]. rewrite (found_by_id o _ Hd'). now rewrite He.
  - exists e. step_dal. rewrite Hid.
    rewrite (find_one_and_update_at (Mongo.has_id o)
               (fun d0 => Ok (Mongo.set_fields (f :: rest) d0)) pre post d
               (Mongo.set_fields (f :: rest) d) Hpre Hd eq_refl).
    cbn [fst snd]. rewrite (found_by_id o _ Hd'). now rewrite He.
Qed.

(** X16.  On an existing clan, [update_clan] never returns the updated
    document: it raises.  What it wrote before stays: at most the fields
    [clanName] and [description] of that clan; every other field of the
    clan (its identifier, its kingdom, its members), every other clan and
    every kingdom is as before. *)
Theorem update_clan_writes_two_fields_and_raises
    (str : value -> string) (fromisoformat : string -> option datetime)
    (rejects_empty_update : bool)
    (s : KingdomDAL.db) (clan_id : Bson.ident) (o : oid) (d : document)
    (name description : option string) :
  Bson.ObjectId clan_id = Ok o ->
  Mongo.find_one (Mongo.has_id o) (KingdomDAL.clan_collection s) = Some d ->
  let s' := fst (KingdomDAL.update_clan str fromisoformat rejects_empty_update
                   clan_id name description s) in
  (exists e,
      snd (KingdomDAL.update_clan str fromisoformat rejects_empty_update
             clan_id name description s) = Raise e)
  /\ KingdomDAL.kingdom_collection s' = KingdomDAL.kingdom_collection s
  /\ length (KingdomDAL.clan_collection s')
     = length (KingdomDAL.clan_collection s)
  /\ (forall o', o' <> o ->
        Mongo.find_one (Mongo.has_id o') (KingdomDAL.clan_collection s')
        = Mongo.find_one (Mongo.has_id o') (KingdomDAL.clan_collection s))
  /\ exists d',
       Mongo.find_one (Mongo.has_id o) (KingdomDAL.clan_collection s')
       = Some d'
       /\ (forall k, k <> "clanName" -> k <> "description" ->
                     Py.lookup d' k = Py.lookup d k).
Proof.
  intros Hid F s'.
  destruct (find_one_split _ _ _ F) as (pre & post & Hc & Hpre & Hd).
  destruct (update_clan_at str fromisoformat rejects_empty_update pre post
              (KingdomDAL.kingdom_collection s) clan_id o d name description
              Hid Hpre Hd) as [e E].
  rewrite <- Hc, db_eta in E.
  set (d' := Mongo.set_fields (KingdomDAL.update_fields name description) d)
    in *.
  assert (Hd' : Mongo.has_id o d' = true).
  { unfold d'. rewrite has_id_set_fields; [exact Hd|].
    intros kv Hkv. apply update_fields_keys in Hkv as [-> | ->]; discriminate. }
  subst s'. rewrite E.
  cbn [fst snd KingdomDAL.kingdom_collection KingdomDAL.clan_collection].
  split; [now exists e|]. split; [reflexivity|]. split.
  { rewrite Hc, !length_app. reflexivity. }
  split.
  { intros o' N. rewrite Hc. apply find_one_replaced.
    - exact (has_id_other o o' d Hd N).
    - exact (has_id_other o o' d' Hd' N). }
  exists d'. split; [exact (find_one_at _ pre post d' Hpre Hd')|].
  intros k N1 N2. unfold d'. apply lookup_set_fields_other.
  intros kv Hkv. apply update_fields_keys in Hkv as [-> | ->]; congruence.
Qed.

Lemma update_clan_writes_two_fields_and_raises_witness :
  Bson.ObjectId (Bson.IdOid Example.stark_id) = Ok Example.stark_id
  /\ Mongo.find_one (Mongo.has_id Example.stark_id)
       (KingdomDAL.clan_collection Example.realm) = Some Example.stark
  /\ exists e,
       snd (KingdomDAL.update_clan Example.str Example.fromisoformat false
              (Bson.IdOid Example.stark_id) (Some "Stark of Winterfell")
              None Example.realm) = Raise e.
Proof.
  do 2 (split; [reflexivity|]).
  destruct (update_clan_writes_two_fields_and_raises Example.str
              Example.fromisoformat false Example.realm
              (Bson.IdOid Example.stark_id) Example.stark_id Example.stark
              (Some "Stark of Winterfell") None eq_refl eq_refl) as (H & _).
  exact H.
Defined.

(** X17.  [update_clan] is idempotent on the store: running the same update
    a second time leaves the database as the first run left it. *)
Theorem update_clan_twice
    (str : value -> string) (fromisoformat : string -> option datetime)
    (rejects_empty_update : bool)
    (s : KingdomDAL.db) (clan_id : Bson.ident) (o : oid) (d : document)
    (name description : option string) :
  Bson.ObjectId clan_id = Ok o ->
  Mongo.find_one (Mongo.has_id o) (KingdomDAL.clan_collection s) = Some d ->
  let s' := fst (KingdomDAL.update_clan str fromisoformat rejects_empty_update
                   clan_id name description s) in
  fst (KingdomDAL.update_clan str fromisoformat rejects_empty_update
         clan_id name description s')
  = s'.
Proof.
  intros Hid F s'.
  destruct (find_one_split _ _ _ F) as (pre & post & Hc & Hpre & Hd).
  destruct (update_clan_at str fromisoformat rejects_empty_update pre post
              (KingdomDAL.kingdom_collection s) clan_id o d name description
              Hid Hpre Hd) as [e E].
  rewrite <- Hc, db_eta in E.
  set (d' := Mongo.set_fields (KingdomDAL.update_fields name description) d)
    in *.
  assert (Hd' : Mongo.has_id o d' = true).
  { unfold d'. rewrite has_id_set_fields; [exact Hd|].
    intros kv Hkv. apply update_fields_keys in Hkv as [-> | ->]; discriminate. }
  subst s'. rewrite E. cbn [fst].
  destruct (update_clan_at str fromisoformat rejects_empty_update pre post
              (KingdomDAL.kingdom_collection s) clan_id o d' name description
              Hid Hpre Hd') as [e' E'].
  rewrite E'. cbn [fst]. unfold d'.
  now rewrite (set_fields_twice _ d (update_fields_NoDup name description)).
Qed.

Lemma update_clan_twice_witness :
  Bson.ObjectId (Bson.IdOid Example.stark_id) = Ok Example.stark_id
  /\ Mongo.find_one (Mongo.has_id Example.stark_id)
       (KingdomDAL.clan_collection Example.realm) = Some Example.stark
  /\ fst (KingdomDAL.update_clan Example.str Example.fromisoformat false
            (Bson.IdOid Example.stark_id) (Some "Stark of Winterfell")
            (Some "")
            (fst (KingdomDAL.update_clan Example.str Example.fromisoformat
                    false (Bson.IdOid Example.stark_id)
                    (Some "Stark of Winterfell") (Some "") Example.realm)))
     = fst (KingdomDAL.update_clan Example.str Example.fromisoformat false
              (Bson.IdOid Example.stark_id) (Some "Stark of Winterfell")
              (Some "") Example.realm).
Proof.
  do 2 (split; [reflexivity|]).
  exact (update_clan_twice Example.str Example.fromisoformat false
           Example.realm (Bson.IdOid Example.stark_id) Example.stark_id
           Example.stark (Some "Stark of Winterfell") (Some "")
           eq_refl eq_refl).
Defined.

(** ** The models *)

(** X18.  Neither summary model can be built from a document:
    [KingdomSummary.from_doc] and [ClanSummary.from_doc] raise on every
    argument. *)
Theorem summaries_are_never_built (str : value -> string) (doc : value) :
  (exists e, KingdomSummary.from_doc str doc = Raise e)
  /\ (exists e, ClanSummary.from_doc str doc = Raise e).
Proof.
  split; [apply KingdomSummary_from_doc_raises|].
  unfold ClanSummary.from_doc.
  destruct (Py.as_dict doc) as [d|e]; simpl; [|now exists e].
  destruct (Py.getitem d "_id") as [i|e]; simpl; [|now exists e].
  destruct (Py.getitem d "name") as [n|e]; simpl; [|now exists e].
  destruct (Py.getitem d "memberCount") as [c|e]; simpl; [|now exists e].
  now exists ValidationError.
Qed.

(** X19.  [Clan.from_doc] returns a Clan exactly on the documents that have
    an [_id], a string [clanName] and a [description] that is a string or
    missing; the Clan carries [str] of the identifier, the name, and the
    description, the empty string when it is missing. *)
Theorem Clan_from_doc_returns_iff
    (str : value -> string) (d : document) (c : Clan.t) :
  Clan.from_doc str (VDict d) = Ok c
  <-> exists i,
        Py.lookup d "_id" = Some i
        /\ Py.lookup d "clanName" = Some (VStr (Clan.name c))
        /\ (Py.lookup d "description" = Some (VStr (Clan.description c))
            \/ (Py.lookup d "description" = None /\ Clan.description c = ""))
        /\ Clan.id c = str i.
Proof.
  unfold Clan.from_doc, Py.getitem, Py.get. cbn [Py.as_dict Py.bind].
  split.
  - destruct (Py.lookup d "_id") as [i|]; [|discriminate].
    destruct (Py.lookup d "clanName") as [n|]; [|discriminate].
    cbn [Py.bind].
    destruct n; try discriminate. cbn [Py.bind Pydantic.validate_str].
    destruct (Py.lookup d "description") as [x|].
    + destruct x; try discriminate. cbn. intros [= <-].
      exists i. cbn. repeat split; auto.
    + cbn. intros [= <-]. exists i. cbn. repeat split; auto.
  - intros (i & Hi & Hn & Hdesc & Hid). rewrite Hi, Hn.
    cbn [Py.bind Pydantic.validate_str].
    destruct c as [ci cn cd]. cbn in *. subst ci.
    destruct Hdesc as [-> | [-> ->]]; reflexivity.
Qed.

(** X20.  What a Member that [Member.from_doc] returned says about the
    document: the nickname is the stored string; each text field is the
    stored string, or the empty string when the field is missing; each
    access flag is the truth value of the stored field, false when it is
    missing; and the two dates were stored as strings that
    [datetime.fromisoformat] parses.  A document that holds a date of
    another type, as the members that [add_armymember] stores do, is never
    read. *)
Theorem Member_from_doc_reads
    (str : value -> string) (fromisoformat : string -> option datetime)
    (d : document) (m : Member.t) :
  Member.from_doc str fromisoformat (VDict d) = Ok m ->
  (exists i, Py.lookup d "_id" = Some i /\ Member.id m = str i)
  /\ Py.lookup d "nickname" = Some (VStr (Member.nickname m))
  /\ Py.get d "email" (VStr "") = VStr (Member.email m)
  /\ Py.get d "password" (VStr "") = VStr (Member.password m)
  /\ Py.get d "rank" (VStr "") = VStr (Member.rank m)
  /\ Py.get d "status" (VStr "") = VStr (Member.status m)
  /\ Py.get d "description" (VStr "") = VStr (Member.description m)
  /\ Py.get d "phone" (VStr "") = VStr (Member.phone m)
  /\ Member.image_access m = Py.truthy (Py.get d "imageAccess" (VBool false))
  /\ Member.info_access m = Py.truthy (Py.get d "infoAccess" (VBool false))
  /\ Member.manage_access m
     = Py.truthy (Py.get d "manageAccess" (VBool false))
  /\ Member.media_access m = Py.truthy (Py.get d "mediaAccess" (VBool false))
  /\ (exists r, Py.get d "registrationDate" (VStr "") = VStr r
                /\ fromisoformat r = Some (Member.registration_date m))
  /\ (exists r, Py.get d "lastLogin" (VStr "") = VStr r
                /\ fromisoformat r = Some (Member.last_login m)).
Proof.
  intros H.
  unfold Member.from_doc in H. cbn [Py.as_dict Py.bind] in H.
  repeat invert_bind H. injection H as <-. cbn.
  repeat match goal with
  | E : Py.getitem _ _ = Ok _ |- _ =>
      unfold Py.getitem in E;
      destruct (Py.lookup _ _) eqn:?; [injection E as ->|discriminate E]
  | E : Pydantic.validate_str ?v = Ok _ |- _ =>
      destruct v eqn:?; try discriminate E; injection E as <-
  | E : Member.parse_date _ ?v = Ok _ |- _ =>
      unfold Member.parse_date in E;
      destruct v eqn:?; try discriminate E;
      destruct (fromisoformat _) eqn:?; [injection E as <-|discriminate E]
  end.
  repeat split; eauto.
Qed.

Lemma Member_from_doc_reads_witness :
  exists m,
    Member.from_doc Example.str Example.fromisoformat (VDict Example.arya)
    = Ok m
    /\ Py.get Example.arya "email" (VStr "") = VStr (Member.email m)
    /\ Member.image_access m
       = Py.truthy (Py.get Example.arya "imageAccess" (VBool false))
    /\ Member.email m = ""
    /\ Member.registration_date m = 0%Z.
Proof.
  eexists. split; [reflexivity|].
  destruct (Member_from_doc_reads Example.str Example.fromisoformat
              Example.arya _ eq_refl)
    as (_ & _ & He & _ & _ & _ & _ & _ & Hi & _).
  split; [exact He|]. split; [exact Hi|]. split; reflexivity.
Defined.

(** ** A kingdom and its first clan *)

(** X21.  A kingdom without clans is returned by [get_kingdom]; once
    [create_clan] has stored a first clan for it, [get_kingdom] on the same
    identifier raises a ValueError instead of returning the kingdom. *)
Theorem first_clan_makes_kingdom_unreadable
    (str : value -> string) (fromisoformat : string -> option datetime)
    (s : KingdomDAL.db) (new_id : oid) (k : oid) (d : document)
    (clan_name description : string) :
  Mongo.find_one (Mongo.has_id k) (KingdomDAL.kingdom_collection s) = Some d ->
  Mongo.find (Mongo.field_is "kingdomId" k) (KingdomDAL.clan_collection s)
  = [] ->
  existsb (Mongo.has_id new_id) (KingdomDAL.clan_collection s) = false ->
  let s' := fst (KingdomDAL.create_clan str fromisoformat new_id
                   (Bson.IdOid k) clan_name description s) in
  KingdomDAL.get_kingdom str fromisoformat (Bson.IdOid k) s
  = (s, Ok (Some (Py.setitem d "clans" (VList []))))
  /\ KingdomDAL.get_kingdom str fromisoformat (Bson.IdOid k) s'
     = (s', Raise ValueError).
Proof.
  intros F Hn Hf s'.
  pose proof (find_one_holds _ _ _ F) as Hd.
  split.
  - unfold KingdomDAL.get_kingdom. step_dal. cbn [Bson.ObjectId]. rewrite F.
    rewrite (found_by_id k d Hd). unfold Py.getitem.
    rewrite (has_id_lookup k d Hd). cbn [KingdomDAL.ident_of].
    now rewrite (list_clans_none str fromisoformat k s Hn).
  - subst s'.
    rewrite (create_clan_store str fromisoformat s new_id (Bson.IdOid k) k
               clan_name description eq_refl Hf).
    set (c := [ ("_id", VOid new_id); ("kingdomId", VOid k);
                ("clanName", VStr clan_name);
                ("description", VStr description);
                ("armyMembers", VList []) ]).
    set (s1 := KingdomDAL.mkdb (KingdomDAL.kingdom_collection s)
                 (KingdomDAL.clan_collection s ++ [c])).
    assert (L : Mongo.find (Mongo.field_is "kingdomId" k)
                  (KingdomDAL.clan_collection s1) = [c]).
    { unfold s1. cbn [KingdomDAL.clan_collection]. unfold Mongo.find in *.
      rewrite filter_app, Hn. cbn [filter app].
      unfold Mongo.field_is, c. simpl. now rewrite String.eqb_refl. }
    destruct (list_clans_some str fromisoformat k s1 c [] L) as (e & He & E).
    assert (e = ValueError).
    { rewrite (hydrate_empty_clan str fromisoformat c (VOid new_id)
                 clan_name) in He; try reflexivity.
      - now injection He.
      - now exists description. }
    subst e.
    unfold KingdomDAL.get_kingdom. step_dal. cbn [Bson.ObjectId].
    change (KingdomDAL.kingdom_collection s1)
      with (KingdomDAL.kingdom_collection s).
    rewrite F. rewrite (found_by_id k d Hd). unfold Py.getitem.
    rewrite (has_id_lookup k d Hd). cbn [KingdomDAL.ident_of].
    now rewrite E.
Qed.

Lemma first_clan_makes_kingdom_unreadable_witness :
  Mongo.find_one (Mongo.has_id Example.westeros_id) [Example.westeros]
  = Some Example.westeros
  /\ Mongo.find (Mongo.field_is "kingdomId" Example.westeros_id) [] = []
  /\ existsb (Mongo.has_id Example.tully_id) [] = false
  /\ KingdomDAL.get_kingdom Example.str Example.fromisoformat
       (Bson.IdOid Example.westeros_id)
       (KingdomDAL.mkdb [Example.westeros] [])
     = (KingdomDAL.mkdb [Example.westeros] [],
        Ok (Some [ ("_id", VOid Example.westeros_id);
                   ("name", VStr "Westeros"); ("clans", VList []) ]))
  /\ KingdomDAL.get_kingdom Example.str Example.fromisoformat
       (Bson.IdOid Example.westeros_id) Example.riverlands
     = (Example.riverlands, Raise ValueError).
Proof.
  do 3 (split; [reflexivity|]).
  exact (first_clan_makes_kingdom_unreadable Example.str
           Example.fromisoformat (KingdomDAL.mkdb [Example.westeros] [])
           Example.tully_id Example.westeros_id Example.westeros "Tully" ""
           eq_refl eq_refl eq_refl).
Defined.
